(** * Conversation core of the chatbot platform backend

    A shallow embedding of [backend/main.py]: the Firestore document
    store as finite maps, the request handlers as programs in a small
    state-and-exception monad, and the properties of the conversation
    core (context assembly, persistence, ownership, listing order)
    proved about them. *)

From Stdlib Require Import ZArith NArith Ascii String.
From stdpp Require Import gmap strings list fin_maps sorting pretty lexico.

Open Scope string_scope.

(** ** Values stored in documents *)

(** [datetime.datetime]: the seven calendar fields Python keeps. *)
Record datetime := Datetime {
  year : N; month : N; day : N;
  hour : N; minute : N; second : N; microsecond : N
}.

(** The field values the handlers read and write: Python's [None],
    [str], [int] and [datetime]. *)
Inductive value :=
  | VNone
  | VInt (n : Z)
  | VTime (t : datetime)
  | VStr (s : string).

#[global] Instance datetime_eq_dec : EqDecision datetime.
Proof. solve_decision. Defined.
#[global] Instance value_eq_dec : EqDecision value.
Proof. solve_decision. Defined.

(** A document's fields, as [to_dict()] returns them. *)
Abbreviation doc := (gmap string value).

(** [d.get(k)]: the value, or [None] when the key is missing. *)
Definition dict_get (d : doc) (k : string) : value := default VNone (d !! k).

(** [d.get(k, dflt)]. *)
Definition dict_get_or (d : doc) (k : string) (dflt : value) : value :=
  default dflt (d !! k).

(** ** Orders *)

(** Python compares [str] by code point. *)
Definition codes (s : string) : list N :=
  Ascii.N_of_ascii <$> String.list_ascii_of_string s.

#[global] Instance string_lexico : Lexico string :=
  λ s t, lexico (codes s) (codes t).

(** Chronological order of datetimes. *)
Definition datetime_key (t : datetime) : N * N * N * N * N * N * N :=
  (year t, month t, day t, hour t, minute t, second t, microsecond t).

#[global] Instance datetime_lexico : Lexico datetime :=
  λ a b, lexico (datetime_key a) (datetime_key b).

(** Firestore's order on field values: null, then numbers, then
    timestamps, then strings; inside a type the type's own order. *)
#[global] Instance value_lexico : Lexico value := λ v w,
  match v, w with
  | VNone, VNone => False
  | VNone, _ => True
  | VInt _, VNone => False
  | VInt a, VInt b => lexico a b
  | VInt _, _ => True
  | VTime a, VTime b => lexico a b
  | VTime _, VStr _ => True
  | VTime _, _ => False
  | VStr a, VStr b => lexico a b
  | VStr _, _ => False
  end.

Lemma codes_inj s t : codes s = codes t → s = t.
Proof.
  unfold codes. intros H.
  rewrite <- (String.string_of_list_ascii_of_string s),
          <- (String.string_of_list_ascii_of_string t).
  f_equal. revert H.
  generalize (String.list_ascii_of_string s) (String.list_ascii_of_string t).
  induction l as [|a l IH]; intros [|b l']; simpl; try done.
  intros [= Hab Hl]. f_equal; [|by apply IH].
  rewrite <- (Ascii.ascii_N_embedding a), <- (Ascii.ascii_N_embedding b).
  by rewrite Hab.
Qed.

Lemma datetime_key_inj a b : datetime_key a = datetime_key b → a = b.
Proof. destruct a, b. unfold datetime_key; simpl. by intros [= -> -> -> -> -> -> ->]. Qed.

#[global] Instance string_lexico_po : StrictOrder (@lexico string _).
Proof.
  unfold lexico, string_lexico. split.
  - intros s. apply (irreflexivity lexico (codes s)).
  - intros s t u. apply (transitivity (R:=lexico)).
Qed.

#[global] Instance string_lexico_trichotomy : TrichotomyT (@lexico string _).
Proof.
  red; refine (λ s t,
    match trichotomyT lexico (codes s) (codes t) with
    | inleft (left H) => inleft (left H)
    | inleft (right H) => inleft (right (codes_inj _ _ H))
    | inright H => inright H
    end).
Defined.

#[global] Instance datetime_lexico_po : StrictOrder (@lexico datetime _).
Proof.
  unfold lexico, datetime_lexico. split.
  - intros s. apply (irreflexivity lexico (datetime_key s)).
  - intros s t u. apply (transitivity (R:=lexico)).
Qed.

#[global] Instance datetime_lexico_trichotomy : TrichotomyT (@lexico datetime _).
Proof.
  red; refine (λ s t,
    match trichotomyT lexico (datetime_key s) (datetime_key t) with
    | inleft (left H) => inleft (left H)
    | inleft (right H) => inleft (right (datetime_key_inj _ _ H))
    | inright H => inright H
    end).
Defined.

#[global] Instance value_lexico_po : StrictOrder (@lexico value _).
Proof.
  split.
  - intros [|a|a|a] H; [done|..].
    + by apply (irreflexivity lexico a).
    + by apply (irreflexivity lexico a).
    + by apply (irreflexivity lexico a).
  - intros [|a|a|a] [|b|b|b] [|c|c|c] H1 H2; try done.
    + change (lexico a c). by trans b.
    + change (lexico a c). by trans b.
    + change (lexico a c). by trans b.
Qed.

#[global] Instance value_lexico_trichotomy : TrichotomyT (@lexico value _).
Proof.
  red; refine (λ v w,
    match v, w with
    | VNone, VNone => inleft (right eq_refl)
    | VNone, _ => inleft (left _)
    | VInt a, VInt b => cast_trichotomy (trichotomyT lexico a b)
    | VInt _, VNone => inright _
    | VInt _, _ => inleft (left _)
    | VTime a, VTime b => cast_trichotomy (trichotomyT lexico a b)
    | VTime _, VStr _ => inleft (left _)
    | VTime _, _ => inright _
    | VStr a, VStr b => cast_trichotomy (trichotomyT lexico a b)
    | VStr _, _ => inright _
    end); abstract (by (done || congruence)).
Defined.

Section lexico_dec.
Context `{Lexico K, !StrictOrder (@lexico K _), !TrichotomyT (@lexico K _)}.

#[global] Instance lexico_dec (a b : K) : Decision (lexico a b).
Proof.
  refine (match trichotomyT lexico a b with
          | inleft (left H) => left H
          | inleft (right H) => right _
          | inright H => right _
          end).
  - abstract (subst; apply (irreflexivity lexico)).
  - abstract (intros H'; apply (irreflexivity lexico a); by trans b).
Defined.

(** [below key x y]: the key of [x] is at most the key of [y]. *)
Definition below {A} (key : A → K) : relation A :=
  λ x y, ¬ lexico (key y) (key x).

(** [above key x y]: the key of [x] is at least the key of [y]. *)
Definition above {A} (key : A → K) : relation A :=
  λ x y, ¬ lexico (key x) (key y).

#[global] Instance below_dec {A} (key : A → K) x y : Decision (below key x y).
Proof. unfold below. apply _. Defined.
#[global] Instance above_dec {A} (key : A → K) x y : Decision (above key x y).
Proof. unfold above. apply _. Defined.
End lexico_dec.

(** ** Stable sorting *)

Section sort_by.
Context {A} (R : relation A) `{∀ x y, Decision (R x y)}.

(** [x] goes in front of the first element it is related to; with
    [sort_by] folding from the right, elements with equal keys keep
    the order they had (a stable sort, as [list.sort] is). *)
Fixpoint insert_by (x : A) (l : list A) : list A :=
  match l with
  | [] => [x]
  | y :: l' => if decide (R x y) then x :: l else y :: insert_by x l'
  end.

Definition sort_by (l : list A) : list A := foldr insert_by [] l.
End sort_by.

(** ** The document store *)

(** A collection: document id to fields. *)
Abbreviation collection := (gmap string doc).

(** A [DocumentSnapshot] yielded by a query: [.id] and [.to_dict()]. *)
Record snapshot := Snapshot { snap_id : string; to_dict : doc }.

#[global] Instance snapshot_eq_dec : EqDecision snapshot.
Proof. solve_decision. Defined.

(** [collection.stream()]: without an explicit order Firestore yields
    the documents by ascending document id. *)
Definition stream (c : collection) : list snapshot :=
  sort_by (below snap_id) (uncurry Snapshot <$> map_to_list c).

(** [.where(field, "==", v)]. *)
Definition where_eq (field : string) (v : value) (q : list snapshot)
  : list snapshot :=
  filter (λ s, to_dict s !! field = Some v) q.

(** The sort key of [order_by(field)]: the field's value, then the
    document id. *)
Definition order_key (field : string) (s : snapshot) : value * string :=
  (dict_get (to_dict s) field, snap_id s).

(** [.order_by(field)]: ascending; documents without the field are left
    out of the result. *)
Definition order_by (field : string) (q : list snapshot) : list snapshot :=
  sort_by (below (order_key field))
          (filter (λ s, is_Some (to_dict s !! field)) q).

(** [.limit(n)]: the first [n] documents of the ordered result. *)
Definition limit (n : nat) (q : list snapshot) : list snapshot := take n q.

(** An entry of the [messages] list sent to the completion endpoint. *)
Record chat_entry := ChatEntry { role : value; content : value }.

#[global] Instance chat_entry_eq_dec : EqDecision chat_entry.
Proof. solve_decision. Defined.

(** The world a handler runs in: the collections of the database by
    path ([["projects"]], [["projects"; id; "messages"]], [["files"]])
    and the requests made to the completion endpoint so far. *)
Record world := World {
  db : gmap (list string) collection;
  llm_requests : list (list chat_entry)
}.

(** ** Exceptions and the handler monad *)

Inductive exn :=
  | HTTPException (status_code : Z) (detail : string)
  | TimeoutException
  | PyException (msg : string).

(** [str(e)]; an [HTTPException] prints as its status and detail. *)
Definition exn_str (e : exn) : string :=
  match e with
  | HTTPException c d => pretty c +:+ ": " +:+ d
  | TimeoutException => ""
  | PyException m => m
  end.

Inductive outcome (A : Type) :=
  | Return (a : A)
  | Raise (e : exn).
Arguments Return {A} a.
Arguments Raise {A} e.

(** Writes made before an exception stay made: the world is threaded
    through both outcomes. *)
Definition io (A : Type) : Type := world → outcome A * world.

#[global] Instance io_ret : MRet io := λ A a w, (Return a, w).
#[global] Instance io_bind : MBind io := λ A B f m w,
  match m w with
  | (Return a, w') => f a w'
  | (Raise e, w') => (Raise e, w')
  end.

Definition raise {A} (e : exn) : io A := λ w, (Raise e, w).

Definition try_except {A} (m : io A) (h : exn → io A) : io A := λ w,
  match m w with
  | (Return a, w') => (Return a, w')
  | (Raise e, w') => h e w'
  end.

(** [except HTTPException: raise] followed by
    [except Exception as e: raise HTTPException(code, prefix + str(e))]. *)
Definition except_exception {A} (m : io A) (code : Z) (prefix : string) : io A :=
  try_except m (λ e,
    match e with
    | HTTPException _ _ => raise e
    | _ => raise (HTTPException code (prefix +:+ exn_str e))
    end).

(** *** Store primitives *)

(** [db.collection(..).document(id).get()]: [None] when the snapshot's
    [exists] is false. *)
Definition doc_get (path : list string) (id : string) : io (option doc) :=
  λ w, (Return ((db w !!! path) !! id), w).

(** [document(id).set(data)]. *)
Definition doc_set (path : list string) (id : string) (data : doc) : io unit :=
  λ w, (Return (), World (<[path := <[id := data]> (db w !!! path)]> (db w))
                          (llm_requests w)).

(** The size of a document as the store counts it: every string is
    its bytes and one more, a number or a timestamp eight bytes, a
    null one; the name of the document is the ids on its path and
    sixteen bytes, the document its name, its field names and values
    and thirty-two bytes. *)
Definition string_size (s : string) : Z := Z.of_nat (String.length s) + 1.

Definition value_size (v : value) : Z :=
  match v with
  | VNone => 1
  | VInt _ => 8
  | VTime _ => 8
  | VStr s => string_size s
  end.

Definition document_size (path : list string) (id : string) (data : doc) : Z :=
  foldr (λ s acc, string_size s + acc)%Z 16%Z (path ++ [id])
  + foldr (λ kv acc, string_size kv.1 + value_size kv.2 + acc)%Z 32%Z
          (map_to_list data).

(** The store takes no document of more than 1 MiB. *)
Definition MAX_DOCUMENT_SIZE : Z := 1048576.

(** [document(id).set(data)] for a document that carries a payload:
    the store refuses it when it is too large, with an error whose
    text names the document and the two sizes and is shortened here.
    The handlers that write a few short fields go through [doc_set],
    their documents being taken to fit. *)
Definition doc_set_checked (path : list string) (id : string) (data : doc)
  : io unit :=
  if bool_decide (document_size path id data > MAX_DOCUMENT_SIZE)%Z
  then raise (PyException "400 Document exceeds the maximum allowed size")
  else doc_set path id data.

(** [document(id).delete()]. *)
Definition doc_delete (path : list string) (id : string) : io unit :=
  λ w, (Return (), World (<[path := delete id (db w !!! path)]> (db w))
                          (llm_requests w)).

(** [collection.add(data)]: creates a document under the automatic id
    [id] the client drew; creation fails when the id is taken (the
    text of the client's error stands for whatever it prints). *)
Definition doc_add (path : list string) (id : string) (data : doc) : io unit :=
  λ w, match (db w !!! path) !! id with
       | Some _ => (Raise (PyException "409 Document already exists"), w)
       | None => doc_set path id data w
       end.

(** Running a query over a collection. *)
Definition run_query (path : list string)
    (q : list snapshot → list snapshot) : io (list snapshot) :=
  λ w, (Return (q (stream (db w !!! path))), w).

(** [d[k]]: raises [KeyError] when the key is missing. *)
Definition dict_item (d : doc) (k : string) : io value :=
  match d !! k with
  | Some v => mret v
  | None => raise (PyException ("'" +:+ k +:+ "'"))
  end.

(** [for x in l: body(x)]. *)
Fixpoint for_each {A} (l : list A) (body : A → io unit) : io unit :=
  match l with
  | [] => mret ()
  | x :: l' => body x;; for_each l' body
  end.

(** ** Timestamps on the wire *)

(** The decimal digit of [n mod 10]. *)
Definition digit (n : N) : ascii := Ascii.ascii_of_N (48 + n mod 10).

(** [n] in decimal, zero-padded to the width [w] (the [%0wd] of
    [isoformat]). *)
Fixpoint pad (w : nat) (n : N) : string :=
  match w with
  | O => ""
  | S w' => pad w' (n / 10) +:+ String (digit n) ""
  end.

(** [timestamp.isoformat()] of a timestamp read back from the store
    (timezone-aware, UTC): the fraction is printed only when the
    microseconds are not zero. *)
Definition isoformat (t : datetime) : string :=
  pad 4 (year t) +:+ "-" +:+ pad 2 (month t) +:+ "-" +:+ pad 2 (day t)
  +:+ "T" +:+ pad 2 (hour t) +:+ ":" +:+ pad 2 (minute t)
  +:+ ":" +:+ pad 2 (second t)
  +:+ (if bool_decide (microsecond t = 0%N) then "+00:00"
       else "." +:+ pad 6 (microsecond t) +:+ "+00:00").

(** [serialize_timestamp]: [None] stays [None], a datetime becomes its
    ISO string, anything else goes through [str]. *)
Definition serialize_timestamp (timestamp : value) : option string :=
  match timestamp with
  | VNone => None
  | VTime t => Some (isoformat t)
  | VStr s => Some s
  | VInt n => Some (pretty n)
  end.

(** ** The handlers *)

(** What [client.post] to the completion endpoint does: it times out,
    fails otherwise (with the text of the exception), or answers with a
    status code, a body, and the value of
    [response.json()["choices"][0]["message"]["content"]] (or the text
    of the exception that expression raises). *)
Inductive http_result :=
  | HttpTimeout
  | HttpFailure (msg : string)
  | HttpResponse (code : Z) (text : string) (completion : string + string).

Record response := Response {
  resp_status_code : Z;
  resp_text : string;
  resp_completion : string + string
}.

(** A project as [list_projects] returns it. *)
Record project_entry := ProjectEntry {
  pe_id : string;
  pe_name : value;
  pe_systemPrompt : value;
  pe_createdAt : option string;
  pe_userId : value
}.

(** A message as [get_chat_history] returns it. *)
Record history_entry := HistoryEntry {
  he_role : value;
  he_content : value;
  he_timestamp : option string
}.

(** An [UploadFile]. *)
Record upload_file_t := UploadFile {
  filename : value;
  content_type : value;
  file_bytes : list Byte.byte
}.

(** The answer of [upload_file]. *)
Record upload_result := UploadResult {
  ur_fileId : string;
  ur_filename : value;
  ur_size : Z;
  ur_contentType : value
}.

Definition projects_path : list string := ["projects"].
Definition files_path : list string := ["files"].
Definition messages_path (project_id : string) : list string :=
  ["projects"; project_id; "messages"].

Definition MAX_FILE_SIZE : Z := 10 * 1024 * 1024.

(** The message list [chat] builds: the system prompt, the history the
    query yielded, then the new user message. *)
Definition chat_context (project_data : doc) (history : list snapshot)
    (message : string) : list chat_entry :=
  [ChatEntry (VStr "system") (dict_get_or project_data "systemPrompt" (VStr ""))]
  ++ ((λ msg, ChatEntry (dict_get (to_dict msg) "role")
                        (dict_get (to_dict msg) "content")) <$> history)
  ++ [ChatEntry (VStr "user") (VStr message)].

(** The query of [chat] for the history. *)
Definition chat_history_query : list snapshot → list snapshot :=
  limit 20 ∘ order_by "timestamp".

Definition message_doc (r : string) (c : string) (now : datetime) : doc :=
  <["role" := VStr r]> (<["content" := VStr c]> (<["timestamp" := VTime now]> ∅)).

Definition project_dict (project : snapshot) : project_entry :=
  let data := to_dict project in
  ProjectEntry (snap_id project) (dict_get data "name")
               (dict_get data "systemPrompt")
               (serialize_timestamp (dict_get data "createdAt"))
               (dict_get data "userId").

Definition history_dict (msg : snapshot) : history_entry :=
  let msg_data := to_dict msg in
  HistoryEntry (dict_get msg_data "role") (dict_get msg_data "content")
               (serialize_timestamp (dict_get msg_data "timestamp")).

Section handlers.
(** The completion endpoint, the base64 encoder and the text of the
    [TypeError] a failed comparison raises are outside the program. *)
Variable llm : list chat_entry → http_result.
Variable b64encode : list Byte.byte → string.
Variable type_error_text : list (option string) → string.

Definition post_completions (messages : list chat_entry) : io response :=
  λ w,
    let w' := World (db w) (llm_requests w ++ [messages]) in
    match llm messages with
    | HttpTimeout => (Raise TimeoutException, w')
    | HttpFailure msg => (Raise (PyException msg), w')
    | HttpResponse c t r => (Return (Response c t r), w')
    end.

Definition call_openrouter_llm (messages : list chat_entry) : io string :=
  try_except
    (response ← post_completions messages;
     if bool_decide (resp_status_code response ≠ 200%Z)
     then raise (HTTPException (resp_status_code response)
                   ("LLM API error: " +:+ resp_text response))
     else match resp_completion response with
          | inl result => mret result
          | inr msg => raise (PyException msg)
          end)
    (λ e, match e with
          | TimeoutException =>
              raise (HTTPException 504 "LLM request timeout")
          | _ => raise (HTTPException 500 ("LLM error: " +:+ exn_str e))
          end).

(** [now] is the reading of [datetime.utcnow()], [project_id] the
    automatic id of the new document. *)
Definition create_project (name system_prompt : string) (user_id : string)
    (now : datetime) (project_id : string) : io string :=
  try_except
    (doc_set projects_path project_id
       (<["userId" := VStr user_id]> (<["name" := VStr name]>
        (<["systemPrompt" := VStr system_prompt]>
        (<["createdAt" := VTime now]> ∅))));;
     mret project_id)
    (λ e, raise (HTTPException 400 (exn_str e))).

(** [result.sort(key=..., reverse=True)]: a stable descending sort;
    comparing [None] with anything raises [TypeError], and a sort of
    two or more elements compares every element at least once. *)
Definition sort_reverse {A} (key : A → option string) (l : list A)
    : io (list A) :=
  if bool_decide (2 ≤ length l)%nat && bool_decide (Exists (λ x, key x = None) l)
  then raise (PyException (type_error_text (key <$> l)))
  else mret (sort_by (above (λ x, default "" (key x))) l).

Definition list_projects (user_id : string) : io (list project_entry) :=
  try_except
    (projects ← run_query projects_path (where_eq "userId" (VStr user_id));
     let result := project_dict <$> projects in
     sort_reverse pe_createdAt result)
    (λ e, raise (HTTPException 500 (exn_str e))).

Definition delete_project (project_id user_id : string) : io unit :=
  except_exception
    (project ← doc_get projects_path project_id;
     match project with
     | None => raise (HTTPException 404 "Project not found")
     | Some project_data =>
         if bool_decide (dict_get project_data "userId" ≠ VStr user_id)
         then raise (HTTPException 403 "Unauthorized access")
         else
           messages ← run_query (messages_path project_id) id;
           for_each messages
             (λ msg, doc_delete (messages_path project_id) (snap_id msg));;
           doc_delete projects_path project_id
     end)
    400 "".

(** [now_user] and [now_assistant] are the two readings of
    [datetime.utcnow()], [id_user] and [id_assistant] the automatic
    ids of the two new message documents. *)
Definition chat (project_id : string) (message : string) (user_id : string)
    (now_user now_assistant : datetime) (id_user id_assistant : string)
    : io string :=
  except_exception
    (project_ref ← doc_get projects_path project_id;
     match project_ref with
     | None => raise (HTTPException 404 "Project not found")
     | Some project_data =>
         if bool_decide (dict_get project_data "userId" ≠ VStr user_id)
         then raise (HTTPException 403 "Unauthorized access")
         else
           history ← run_query (messages_path project_id) chat_history_query;
           let messages := chat_context project_data history message in
           assistant_response ← call_openrouter_llm messages;
           doc_add (messages_path project_id) id_user
             (message_doc "user" message now_user);;
           doc_add (messages_path project_id) id_assistant
             (message_doc "assistant" assistant_response now_assistant);;
           mret assistant_response
     end)
    500 "".

Definition get_chat_history (project_id user_id : string)
    : io (list history_entry) :=
  except_exception
    (project_ref ← doc_get projects_path project_id;
     match project_ref with
     | None => raise (HTTPException 404 "Project not found")
     | Some project_data =>
         if bool_decide (dict_get project_data "userId" ≠ VStr user_id)
         then raise (HTTPException 403 "Unauthorized access")
         else
           messages ← run_query (messages_path project_id)
                        (order_by "timestamp");
           mret (history_dict <$> messages)
     end)
    500 "".

Definition file_doc (project_id user_id : string) (file : upload_file_t)
    (now : datetime) : doc :=
  <["projectId" := VStr project_id]> (<["userId" := VStr user_id]>
  (<["filename" := filename file]> (<["contentType" := content_type file]>
  (<["size" := VInt (Z.of_nat (length (file_bytes file)))]>
  (<["contentBase64" := VStr (b64encode (file_bytes file))]>
  (<["uploadedAt" := VTime now]> ∅)))))).

(** [now] is the reading of [get_timestamp()], [file_id] the automatic
    id of [collection("files").document()]. *)
Definition upload_file (project_id : string) (file : upload_file_t)
    (user_id : string) (now : datetime) (file_id : string)
    : io upload_result :=
  except_exception
    (project_doc ← doc_get projects_path project_id;
     match project_doc with
     | None => raise (HTTPException 404 "Project not found")
     | Some project_data =>
         owner ← dict_item project_data "userId";
         if bool_decide (owner ≠ VStr user_id)
         then raise (HTTPException 403 "Access denied")
         else
           let file_size := Z.of_nat (length (file_bytes file)) in
           if bool_decide (file_size > MAX_FILE_SIZE)%Z
           then raise (HTTPException 400
                         "File too large. Maximum size: 10.0MB")
           else
             doc_set_checked files_path file_id
               (file_doc project_id user_id file now);;
             mret (UploadResult file_id (filename file) file_size
                                (content_type file))
     end)
    500 "File upload failed: ".

Definition delete_file (project_id file_id user_id : string) : io string :=
  except_exception
    (project_doc ← doc_get projects_path project_id;
     match project_doc with
     | None => raise (HTTPException 404 "Project not found")
     | Some project_data =>
         owner ← dict_item project_data "userId";
         if bool_decide (owner ≠ VStr user_id)
         then raise (HTTPException 403 "Access denied")
         else
           file_doc ← doc_get files_path file_id;
           match file_doc with
           | None => raise (HTTPException 404 "File not found")
           | Some file_data =>
               file_project ← dict_item file_data "projectId";
               if bool_decide (file_project ≠ VStr project_id)
               then raise (HTTPException 400
                             "File does not belong to project")
               else
                 doc_delete files_path file_id;;
                 mret file_id
           end
     end)
    500 "Failed to delete file: ".
End handlers.

(** ** Notions the properties are stated with *)

(** The datetimes Python can represent. *)
Definition valid_datetime (t : datetime) : Prop :=
  (1 ≤ year t ≤ 9999 ∧ 1 ≤ month t ≤ 12 ∧ 1 ≤ day t ≤ 31 ∧
   hour t < 24 ∧ minute t < 60 ∧ second t < 60 ∧ microsecond t < 1000000)%N.

(** The completion text a call yields: only a 200 answer whose body
    decodes gives one. *)
Definition completion_text (r : http_result) : option string :=
  match r with
  | HttpResponse c _ (inl text) =>
      if bool_decide (c = 200%Z) then Some text else None
  | _ => None
  end.

(** The ordered message log of a project, as [get_chat_history] reads
    it, and the history [chat] reads. *)
Definition message_log (w : world) (project_id : string) : list snapshot :=
  order_by "timestamp" (stream (db w !!! messages_path project_id)).

Definition chat_history (w : world) (project_id : string) : list snapshot :=
  chat_history_query (stream (db w !!! messages_path project_id)).

(** The projects of a user, as the query of [list_projects] yields them. *)
Definition owned_projects (w : world) (user_id : string) : list snapshot :=
  where_eq "userId" (VStr user_id) (stream (db w !!! projects_path)).

(** The sort key of the listing. *)
Definition created_string (entry : project_entry) : string :=
  default "" (pe_createdAt entry).

(** What is left of a collection once the documents of [l] are deleted. *)
Definition delete_snapshots (c : collection) (l : list snapshot) : collection :=
  foldl (λ c msg, delete (snap_id msg) c) c l.

(** *** Sample data *)

Definition demo_time (s : N) : datetime := Datetime 2024 1 1 12 0 s 0.

Definition demo_project (owner : string) (created : datetime) : doc :=
  <["userId" := VStr owner]> (<["name" := VStr "demo"]>
  (<["systemPrompt" := VStr "You are helpful"]>
  (<["createdAt" := VTime created]> ∅))).

(** Twenty-one messages [m1] ... [m21], one per second. *)
Definition demo_messages : collection :=
  list_to_map
    ((λ n : N, ("msg" +:+ pad 2 n,
                message_doc "user" ("m" +:+ pretty n) (demo_time n)))
       <$> [1; 2; 3; 4; 5; 6; 7; 8; 9; 10; 11; 12; 13; 14; 15; 16; 17; 18;
            19; 20; 21]%N).

Definition demo_world : world :=
  World (<[projects_path := <["p" := demo_project "alice" (demo_time 0)]> ∅]>
         (<[messages_path "p" := demo_messages]> ∅)) [].

(** A project with two earlier messages. *)
Definition small_world : world :=
  World (<[projects_path :=
             <["p" := demo_project "alice" (demo_time 0)]>
             (<["q" := demo_project "alice" (demo_time 7)]> ∅)]>
         (<[messages_path "p" :=
              <["m1" := message_doc "user" "hi" (demo_time 1)]>
              (<["m2" := message_doc "assistant" "hello" (demo_time 2)]> ∅)]>
         (<[files_path :=
              <["f1" := <["projectId" := VStr "p"]>
                        (<["userId" := VStr "bob"]> ∅)]> ∅]> ∅))) [].

Definition llm_hello : list chat_entry → http_result :=
  λ _, HttpResponse 200 "" (inl "hello").
Definition llm_rate_limited : list chat_entry → http_result :=
  λ _, HttpResponse 429 "rate limited" (inr "").
Definition llm_timeout : list chat_entry → http_result := λ _, HttpTimeout.
Definition llm_unreachable : list chat_entry → http_result :=
  λ _, HttpFailure "connection refused".

(** An encoder that, like base64, gives no less text than it takes
    bytes. *)
Definition sample_b64encode (bytes : list Byte.byte) : string :=
  String.string_of_list_ascii ((λ _, "A"%char) <$> bytes).

(** A file of exactly ten mebibytes. *)
Definition ten_mebibytes : list Byte.byte :=
  replicate (N.to_nat 10485760) Byte.x00.

(** ** The handlers outside the conversation core *)

Definition users_path : list string := ["users"].

(** [s.startswith(p)]. *)
Definition startswith (s p : string) : bool := String.prefix p s.

(** [s.split(sep)] for a separator that is not empty: the text is cut
    at every occurrence of [sep], found from left to right without
    overlap. [skip] counts the characters of a separator still to pass,
    [cur] is the piece being read. *)
Fixpoint split_from (sep : string) (s : string) (skip : nat) (cur : string)
  : list string :=
  match s with
  | EmptyString => [cur]
  | String c s' =>
      match skip with
      | S k => split_from sep s' k cur
      | O =>
          if String.prefix sep s
          then cur :: split_from sep s' (String.length sep - 1) ""
          else split_from sep s' 0 (cur +:+ String c "")
      end
  end.

Definition split (s sep : string) : list string := split_from sep s 0 "".

(** An exception of the identity provider, by what the [except]
    clauses ask of it: whether it is an [InvalidIdTokenError], whether
    it is an [ExpiredIdTokenError], and its text. *)
Record auth_error := AuthError {
  is_invalid_id_token : bool;
  is_expired_id_token : bool;
  auth_error_text : string
}.

(** What [firebase_auth.verify_id_token] does with a token: it returns
    the decoded claims, of which the handler reads [uid], or raises. *)
Inductive token_result :=
  | TokenVerified (uid : string)
  | TokenRejected (e : auth_error).

(** [verify_token]: the [HTTPException] for a header of the wrong form
    is raised inside the [try] and is no provider error, so the last
    clause catches it. *)
Definition verify_token (verify_id_token : string → token_result)
    (authorization : string) : outcome string :=
  if negb (startswith authorization "Bearer ")
  then Raise (HTTPException 401
                ("Authentication failed: "
                 +:+ exn_str (HTTPException 401
                                "Invalid authorization header format")))
  else
    match split authorization "Bearer " !! 1%nat with
    | None => Raise (HTTPException 401
                       "Authentication failed: list index out of range")
    | Some token =>
        match verify_id_token token with
        | TokenVerified uid => Return uid
        | TokenRejected e =>
            if is_invalid_id_token e
            then Raise (HTTPException 401 "Invalid Firebase token")
            else if is_expired_id_token e
            then Raise (HTTPException 401 "Token expired")
            else Raise (HTTPException 401
                          ("Authentication failed: " +:+ auth_error_text e))
        end
    end.

(** What [firebase_auth.create_user] does. *)
Inductive create_user_result :=
  | UserCreated (uid : string)
  | EmailAlreadyExistsError
  | CreateUserError (msg : string).

(** A serialized timestamp as a JSON value. *)
Definition json_str (o : option string) : value :=
  match o with
  | Some s => VStr s
  | None => VNone
  end.

(** A file as [list_files] returns it: the payload is popped, the
    document id added, the upload time serialized. *)
Definition file_dict (file : snapshot) : doc :=
  let data := delete "contentBase64" (to_dict file) in
  let data := <["fileId" := VStr (snap_id file)]> data in
  <["uploadedAt" := json_str (serialize_timestamp (dict_get data "uploadedAt"))]>
    data.

(** The answer of [list_files]. *)
Record file_listing := FileListing {
  fl_projectId : string;
  fl_count : nat;
  fl_files : list doc
}.

(** The query of [list_files]. *)
Definition files_query (project_id user_id : string)
  : list snapshot → list snapshot :=
  where_eq "userId" (VStr user_id) ∘ where_eq "projectId" (VStr project_id).

Section more_handlers.
Variable create_user : string → string → value → create_user_result.

(** [now] is the reading of [datetime.utcnow()]. *)
Definition register (email password : string) (display_name : value)
    (now : datetime) : io string :=
  match create_user email password display_name with
  | UserCreated uid =>
      try_except
        (doc_set users_path uid
           (<["email" := VStr email]> (<["displayName" := display_name]>
            (<["createdAt" := VTime now]> ∅)));;
         mret uid)
        (λ e, raise (HTTPException 400 (exn_str e)))
  | EmailAlreadyExistsError =>
      raise (HTTPException 400 "Email already exists")
  | CreateUserError msg => raise (HTTPException 400 msg)
  end.

(** [{"uid": user_id, **data}]: a key of [data] wins over [uid]. *)
Definition get_current_user (user_id : string) : io doc :=
  try_except
    (user_data ← doc_get users_path user_id;
     match user_data with
     | None => raise (HTTPException 404 "User not found")
     | Some data =>
         let data :=
           match data !! "createdAt" with
           | Some created_at =>
               <["createdAt" := json_str (serialize_timestamp created_at)]> data
           | None => data
           end in
         mret (data ∪ {["uid" := VStr user_id]})
     end)
    (λ e, raise (HTTPException 400 (exn_str e))).

(** [{"id": project_id, **project_data}]: a key of the document wins
    over [id]. *)
Definition get_project (project_id user_id : string) : io doc :=
  except_exception
    (project_ref ← doc_get projects_path project_id;
     match project_ref with
     | None => raise (HTTPException 404 "Project not found")
     | Some project_data =>
         if bool_decide (dict_get project_data "userId" ≠ VStr user_id)
         then raise (HTTPException 403 "Unauthorized access")
         else
           let project_data :=
             <["createdAt" :=
                 json_str (serialize_timestamp
                             (dict_get project_data "createdAt"))]>
               project_data in
           mret (project_data ∪ {["id" := VStr project_id]})
     end)
    500 "".

Definition list_files (project_id user_id : string) : io file_listing :=
  except_exception
    (project_doc ← doc_get projects_path project_id;
     match project_doc with
     | None => raise (HTTPException 404 "Project not found")
     | Some project_data =>
         owner ← dict_item project_data "userId";
         if bool_decide (owner ≠ VStr user_id)
         then raise (HTTPException 403 "Access denied")
         else
           files ← run_query files_path (files_query project_id user_id);
           mret (FileListing project_id (length files) (file_dict <$> files))
     end)
    500 "Failed to fetch files: ".
End more_handlers.

(** [sep in s]. *)
Fixpoint occurs (sep s : string) : bool :=
  String.prefix sep s
  || match s with
     | EmptyString => false
     | String _ s' => occurs sep s'
     end.

(** The document [create_project] writes. *)
Definition project_doc (name system_prompt user_id : string) (now : datetime)
  : doc :=
  <["userId" := VStr user_id]> (<["name" := VStr name]>
  (<["systemPrompt" := VStr system_prompt]> (<["createdAt" := VTime now]> ∅))).

(** Sorted by [R1], and by [R2] where [R1] ties. *)
Definition tie_sorted {A} (R1 R2 : relation A) : relation A :=
  λ a b, R1 a b ∧ (R1 b a → R2 a b).

(** *** More sample data *)

Definition sample_provider : string → token_result :=
  λ token, if String.eqb token "good.token" then TokenVerified "alice"
           else TokenRejected (AuthError true false "bad signature").

Definition sample_file : upload_file_t :=
  UploadFile (VStr "notes.txt") (VStr "text/plain")
             [Byte.x68; Byte.x69].

(** The small world once [alice] has uploaded [sample_file] to her
    project [p]. *)
Definition files_world : world :=
  World (<[files_path :=
             <["f2" := file_doc (λ _, "aGk=") "p" "alice" sample_file
                                (demo_time 40)]>
               (db small_world !!! files_path)]> (db small_world)) [].

(** Three projects of one owner, two of them created at the same
    time. *)
Definition tie_world : world :=
  World (<[projects_path :=
             <["p" := demo_project "alice" (demo_time 7)]>
             (<["q" := demo_project "alice" (demo_time 7)]>
             (<["r" := demo_project "alice" (demo_time 9)]> ∅))]> ∅) [].

(** A project document without owner. *)
Definition ownerless_world : world :=
  World (<[projects_path :=
             <["p" := <["name" := VStr "demo"]> ∅]> ∅]> ∅) [].

(** ** Facts about the sort *)

Section sort_by_facts.
Context {A} (R : relation A) `{∀ x y, Decision (R x y)}.

Lemma insert_by_Permutation x l : insert_by R x l ≡ₚ x :: l.
Proof.
  induction l as [|y l IH]; simpl; [done|].
  case_decide; [done|]. rewrite IH. apply Permutation_swap.
Qed.

Lemma sort_by_Permutation l : sort_by R l ≡ₚ l.
Proof.
  induction l as [|x l IH]; simpl; [done|].
  by rewrite insert_by_Permutation, IH.
Qed.

Lemma length_sort_by l : length (sort_by R l) = length l.
Proof. by rewrite sort_by_Permutation. Qed.

Lemma elem_of_sort_by x l : x ∈ sort_by R l ↔ x ∈ l.
Proof. by rewrite sort_by_Permutation. Qed.

Context `{!Total R, !Transitive R}.

Lemma insert_by_sorted x l :
  StronglySorted R l → StronglySorted R (insert_by R x l).
Proof.
  induction 1 as [|y l Hl IH Hy]; simpl.
  - repeat constructor.
  - case_decide as Hxy.
    + constructor; [by constructor|].
      constructor; [done|]. eapply Forall_impl; [exact Hy|].
      intros z Hz. by trans y.
    + constructor; [done|].
      rewrite insert_by_Permutation. constructor; [|done].
      by destruct (total R x y).
Qed.

Lemma sort_by_sorted l : StronglySorted R (sort_by R l).
Proof.
  induction l as [|x l IH]; simpl; [constructor|by apply insert_by_sorted].
Qed.
End sort_by_facts.

Section order_facts.
Context `{Lexico K, !StrictOrder (@lexico K _), !TrichotomyT (@lexico K _)}.
Context {A} (key : A → K).

#[global] Instance below_total : Total (below key).
Proof.
  intros x y. unfold below.
  destruct (trichotomy lexico (key x) (key y)) as [Hlt|[Heq|Hgt]].
  - left. intros Hyx. apply (irreflexivity lexico (key x)). by trans (key y).
  - left. rewrite Heq. apply (irreflexivity lexico).
  - right. intros Hyx. apply (irreflexivity lexico (key x)). by trans (key y).
Qed.

#[global] Instance below_trans : Transitive (below key).
Proof.
  intros x y z Hxy Hyz Hzx. unfold below in *.
  destruct (trichotomy lexico (key y) (key z)) as [Hlt|[Heq|Hgt]]; [|congruence|done].
  apply Hxy. by trans (key z).
Qed.

#[global] Instance above_total : Total (above key).
Proof. intros x y. destruct (total (below key) x y); [by right|by left]. Qed.

#[global] Instance above_trans : Transitive (above key).
Proof. intros x y z Hxy Hyz. by apply (below_trans z y x). Qed.

(** Two elements neither of which is strictly before the other have
    the same key. *)
Lemma below_antisym x y : below key x y → below key y x → key x = key y.
Proof.
  unfold below. intros Hxy Hyx.
  by destruct (trichotomy lexico (key x) (key y)) as [?|[?|?]].
Qed.
End order_facts.

(** Sorting the images is mapping the sorted list. *)
Lemma sort_by_fmap {A B} (R : relation B) `{∀ x y, Decision (R x y)}
    (f : A → B) `{∀ x y, Decision (R (f x) (f y))} (l : list A) :
  sort_by R (f <$> l) = f <$> sort_by (λ x y, R (f x) (f y)) l.
Proof.
  unfold sort_by. induction l as [|x l IH]; csimpl; [done|]. rewrite IH.
  generalize (foldr (insert_by (λ x y, R (f x) (f y))) [] l). clear IH.
  intros s. induction s as [|y s IH]; csimpl; [done|].
  repeat case_decide; try done. csimpl. by rewrite IH.
Qed.

Lemma StronglySorted_weaken {A} (R R' : relation A) l :
  (∀ x y, x ∈ l → y ∈ l → R x y → R' x y) →
  StronglySorted R l → StronglySorted R' l.
Proof.
  intros Himpl Hl. induction Hl as [|x l Hl IH Hx]; constructor.
  - apply IH. intros y z Hy Hz. apply Himpl; by right.
  - apply Forall_forall. intros y Hy. apply Himpl; [by left|by right|].
    by eapply Forall_forall in Hx.
Qed.

(** ** Queries *)

Lemma stream_Permutation (c : collection) :
  stream c ≡ₚ uncurry Snapshot <$> map_to_list c.
Proof. apply sort_by_Permutation. Qed.

Lemma elem_of_stream (c : collection) s :
  s ∈ stream c ↔ c !! snap_id s = Some (to_dict s).
Proof.
  rewrite stream_Permutation, list_elem_of_fmap. split.
  - intros ([i d] & -> & Hin). by apply elem_of_map_to_list in Hin.
  - intros Hs. exists (snap_id s, to_dict s). split; [by destruct s|].
    by apply elem_of_map_to_list.
Qed.

Lemma stream_empty : stream ∅ = [].
Proof. unfold stream. by rewrite map_to_list_empty. Qed.

Lemma stream_NoDup (c : collection) : NoDup (stream c).
Proof.
  rewrite stream_Permutation. apply NoDup_fmap_2; [|apply NoDup_map_to_list].
  by intros [i d] [i' d'] [= -> ->].
Qed.

Lemma order_by_Permutation field q :
  order_by field q ≡ₚ filter (λ s, is_Some (to_dict s !! field)) q.
Proof. apply sort_by_Permutation. Qed.

Lemma elem_of_order_by field q s :
  s ∈ order_by field q ↔ is_Some (to_dict s !! field) ∧ s ∈ q.
Proof. by rewrite order_by_Permutation, list_elem_of_filter. Qed.

Lemma order_by_sorted field q :
  StronglySorted (below (order_key field)) (order_by field q).
Proof. apply sort_by_sorted; apply _. Qed.

Lemma stream_insert (c : collection) i d :
  c !! i = None → stream (<[i := d]> c) ≡ₚ Snapshot i d :: stream c.
Proof.
  intros Hi. rewrite !stream_Permutation, map_to_list_insert by done. done.
Qed.

(** A document whose sort key is above every key of the collection
    comes last in the ordered result. *)
Lemma order_by_insert_last field (c : collection) i d :
  c !! i = None →
  is_Some (d !! field) →
  (∀ s, s ∈ order_by field (stream c) →
        lexico (order_key field s) (order_key field (Snapshot i d))) →
  order_by field (stream (<[i := d]> c))
  = (order_by field (stream c) ++ [Snapshot i d])%list.
Proof.
  intros Hi Hd Hlast.
  assert (Hperm : order_by field (stream (<[i := d]> c))
                  ≡ₚ (order_by field (stream c) ++ [Snapshot i d])%list).
  { rewrite !order_by_Permutation, stream_insert by done.
    rewrite filter_cons_True by done. by rewrite Permutation_cons_append. }
  apply (StronglySorted_unique_strong (below (order_key field)));
    [|apply order_by_sorted| |done].
  - intros x1 x2 Hx1 Hx2 H12 H21.
    pose proof (below_antisym _ _ _ H12 H21) as [= Hv Hid].
    rewrite <- Hperm in Hx2.
    apply elem_of_order_by in Hx1 as [_ Hx1], Hx2 as [_ Hx2].
    apply elem_of_stream in Hx1, Hx2. rewrite Hid, Hx2 in Hx1.
    destruct x1, x2; simpl in *. by simplify_eq.
  - apply StronglySorted_app_2; [|apply order_by_sorted|by repeat constructor].
    intros x1 x2 Hx1 Hx2 Hlt. apply list_elem_of_singleton in Hx2 as ->.
    apply (irreflexivity lexico (order_key field x1)).
    trans (order_key field (Snapshot i d)); [by apply Hlast|done].
Qed.

Lemma elem_of_owned_projects w user_id s :
  s ∈ owned_projects w user_id ↔
  (db w !!! projects_path) !! snap_id s = Some (to_dict s) ∧
  to_dict s !! "userId" = Some (VStr user_id).
Proof.
  unfold owned_projects, where_eq.
  rewrite list_elem_of_filter, elem_of_stream. tauto.
Qed.

(** ** ISO strings sort like the times they print *)

Lemma codes_app s t : codes (s +:+ t) = (codes s ++ codes t)%list.
Proof.
  unfold codes. rewrite <- fmap_app. f_equal.
  induction s as [|a s IH]; simpl; [done|]. by rewrite IH.
Qed.

Lemma lexico_app_same (p a b : list N) :
  lexico a b → lexico (p ++ a)%list (p ++ b)%list.
Proof. intros Hab. induction p as [|x p IH]; simpl; [done|]. by right. Qed.

Lemma lexico_app_lt (a b x y : list N) :
  length a = length b → lexico a b → lexico (a ++ x)%list (b ++ y)%list.
Proof.
  revert b. induction a as [|a0 a IH]; intros [|b0 b] Hlen Hab; try done.
  destruct Hab as [Hlt|[Heq Hab]]; simpl in *.
  - by left.
  - right. split; [done|]. apply IH; [congruence|done].
Qed.

Lemma N_of_ascii_digit n : Ascii.N_of_ascii (digit n) = (48 + n mod 10)%N.
Proof.
  unfold digit. apply Ascii.N_ascii_embedding.
  pose proof (N.mod_lt n 10). lia.
Qed.

Lemma codes_pad_S w n :
  codes (pad (S w) n) = (codes (pad w (n / 10)) ++ [(48 + n mod 10)%N])%list.
Proof. simpl. rewrite codes_app. unfold codes at 2. simpl. by rewrite N_of_ascii_digit. Qed.

Lemma length_codes_pad w n : length (codes (pad w n)) = w.
Proof.
  revert n. induction w as [|w IH]; intros n; [done|].
  rewrite codes_pad_S, length_app, IH. simpl. lia.
Qed.

(** Zero-padded numbers of one width compare like the numbers. *)
Lemma pad_lt w n m :
  (n < m)%N → (m < 10 ^ N.of_nat w)%N →
  lexico (codes (pad w n)) (codes (pad w m)).
Proof.
  revert n m. induction w as [|w IH]; intros n m Hnm Hm.
  - simpl in Hm. lia.
  - rewrite !codes_pad_S.
    rewrite Nat2N.inj_succ, N.pow_succ_r' in Hm.
    pose proof (N.div_mod' n 10) as Hn10. pose proof (N.div_mod' m 10) as Hm10.
    pose proof (N.mod_lt n 10). pose proof (N.mod_lt m 10).
    destruct (decide (n / 10 = m / 10)%N) as [Heq|Hne].
    + rewrite Heq. apply lexico_app_same. left.
      unfold lexico, N_lexico. simpl. lia.
    + apply lexico_app_lt; [by rewrite !length_codes_pad|].
      apply IH; [|apply N.Div0.div_lt_upper_bound; lia].
      assert (n / 10 ≤ m / 10)%N by (apply N.Div0.div_le_mono; lia). lia.
Qed.

Ltac lexico_step H :=
  let Heq := fresh "Heq" in
  destruct H as [H|[Heq H]]; cbn [fst snd] in *; [|simplify_eq].

Lemma codes_isoformat t :
  codes (isoformat t)
  = (codes (pad 4 (year t)) ++ [45%N] ++ codes (pad 2 (month t)) ++ [45%N]
     ++ codes (pad 2 (day t)) ++ [84%N] ++ codes (pad 2 (hour t)) ++ [58%N]
     ++ codes (pad 2 (minute t)) ++ [58%N] ++ codes (pad 2 (second t))
     ++ codes (if bool_decide (microsecond t = 0%N) then "+00:00"
               else "." +:+ pad 6 (microsecond t) +:+ "+00:00"))%list.
Proof. unfold isoformat. by rewrite !codes_app. Qed.

(** The fraction and the offset: [+] sorts before [.], so a whole
    second sorts before any later instant of that second. *)
Lemma fraction_lt us1 us2 :
  (us1 < us2)%N → (us2 < 1000000)%N →
  lexico (codes (if bool_decide (us1 = 0%N) then "+00:00"
                 else "." +:+ pad 6 us1 +:+ "+00:00"))
         (codes (if bool_decide (us2 = 0%N) then "+00:00"
                 else "." +:+ pad 6 us2 +:+ "+00:00")).
Proof.
  intros Hlt Hmax. rewrite (bool_decide_false (us2 = 0%N)) by lia.
  rewrite (codes_app "."). case_bool_decide.
  - by left.
  - rewrite !codes_app. apply lexico_app_same.
    apply lexico_app_lt; [by rewrite !length_codes_pad|].
    by apply pad_lt.
Qed.

(** On valid datetimes the ISO strings are ordered as the times. *)
Lemma isoformat_mono t1 t2 :
  valid_datetime t1 → valid_datetime t2 →
  lexico t1 t2 → lexico (isoformat t1) (isoformat t2).
Proof.
  destruct t1 as [y1 mo1 d1 h1 mi1 s1 us1], t2 as [y2 mo2 d2 h2 mi2 s2 us2].
  unfold valid_datetime. cbn [year month day hour minute second microsecond].
  intros Hv1 Hv2 Hlt.
  unfold lexico at 1, string_lexico. rewrite !codes_isoformat.
  cbn [year month day hour minute second microsecond].
  unfold lexico at 1, datetime_lexico, datetime_key in Hlt.
  cbn [year month day hour minute second microsecond] in Hlt.
  lexico_step Hlt; [lexico_step Hlt; [lexico_step Hlt; [lexico_step Hlt;
    [lexico_step Hlt; [lexico_step Hlt|]|]|]|]|];
    repeat apply lexico_app_same;
    first [ apply fraction_lt; [exact Hlt|lia]
          | apply lexico_app_lt; [by rewrite !length_codes_pad|];
            apply pad_lt; [exact Hlt|simpl; lia] ].
Qed.

(** ** The handlers, step by step *)

Ltac io_unfold :=
  unfold except_exception, try_except, mbind, io_bind, mret, io_ret, raise,
         doc_get, run_query, dict_item.

Ltac io_unfold_in H :=
  unfold except_exception, try_except, mbind, io_bind, mret, io_ret, raise,
         doc_get, run_query, dict_item in H.

(** *** The completion client *)

Lemma call_openrouter_llm_timeout llm messages w :
  llm messages = HttpTimeout →
  call_openrouter_llm llm messages w
  = (Raise (HTTPException 504 "LLM request timeout"),
     World (db w) (llm_requests w ++ [messages])).
Proof.
  intros Hr. unfold call_openrouter_llm, post_completions. io_unfold.
  by rewrite Hr.
Qed.

Lemma call_openrouter_llm_failure llm messages w msg :
  llm messages = HttpFailure msg →
  call_openrouter_llm llm messages w
  = (Raise (HTTPException 500 ("LLM error: " +:+ msg)),
     World (db w) (llm_requests w ++ [messages])).
Proof.
  intros Hr. unfold call_openrouter_llm, post_completions. io_unfold.
  by rewrite Hr.
Qed.

(** An answer other than 200 raises an [HTTPException] carrying the
    upstream status inside the [try]; the last [except Exception]
    clause catches it and raises a 500 in its place. *)
Lemma call_openrouter_llm_status llm messages w c text r :
  llm messages = HttpResponse c text r →
  c ≠ 200%Z →
  call_openrouter_llm llm messages w
  = (Raise (HTTPException 500
       ("LLM error: " +:+ pretty c +:+ ": " +:+ "LLM API error: " +:+ text)),
     World (db w) (llm_requests w ++ [messages])).
Proof.
  intros Hr Hc. unfold call_openrouter_llm, post_completions. io_unfold.
  rewrite Hr. simpl. by rewrite bool_decide_true.
Qed.

Lemma call_openrouter_llm_undecodable llm messages w text msg :
  llm messages = HttpResponse 200 text (inr msg) →
  call_openrouter_llm llm messages w
  = (Raise (HTTPException 500 ("LLM error: " +:+ msg)),
     World (db w) (llm_requests w ++ [messages])).
Proof.
  intros Hr. unfold call_openrouter_llm, post_completions. io_unfold.
  by rewrite Hr.
Qed.

Lemma call_openrouter_llm_ok llm messages w text result :
  llm messages = HttpResponse 200 text (inl result) →
  call_openrouter_llm llm messages w
  = (Return result, World (db w) (llm_requests w ++ [messages])).
Proof.
  intros Hr. unfold call_openrouter_llm, post_completions. io_unfold.
  by rewrite Hr.
Qed.

(** A call without a completion text raises an [HTTPException]; a call
    with one returns it. Either way only the request log grows. *)
Lemma call_openrouter_llm_cases llm messages w :
  match completion_text (llm messages) with
  | Some result =>
      call_openrouter_llm llm messages w
      = (Return result, World (db w) (llm_requests w ++ [messages]))
  | None =>
      ∃ code detail,
        call_openrouter_llm llm messages w
        = (Raise (HTTPException code detail),
           World (db w) (llm_requests w ++ [messages]))
  end.
Proof.
  destruct (llm messages) as [|msg|c text [result|msg]] eqn:Hr; simpl.
  - eexists _, _. by apply call_openrouter_llm_timeout.
  - eexists _, _. by apply call_openrouter_llm_failure.
  - case_bool_decide as Hc.
    + subst c. by eapply call_openrouter_llm_ok.
    + eexists _, _. by eapply call_openrouter_llm_status.
  - destruct (decide (c = 200%Z)) as [->|Hc].
    + eexists _, _. by eapply call_openrouter_llm_undecodable.
    + eexists _, _. by eapply call_openrouter_llm_status.
Qed.

(** *** [chat] and [get_chat_history] *)

(** For the owner of an existing project [chat] is the completion call
    on the assembled context followed by the two writes. *)
Lemma chat_owner llm w project_id project_data user_id message
    now_user now_assistant id_user id_assistant :
  (db w !!! projects_path) !! project_id = Some project_data →
  dict_get project_data "userId" = VStr user_id →
  chat llm project_id message user_id now_user now_assistant
       id_user id_assistant w
  = match call_openrouter_llm llm
            (chat_context project_data (chat_history w project_id) message) w
    with
    | (Return assistant_response, w1) =>
        except_exception
          (doc_add (messages_path project_id) id_user
             (message_doc "user" message now_user);;
           doc_add (messages_path project_id) id_assistant
             (message_doc "assistant" assistant_response now_assistant);;
           mret assistant_response) 500 "" w1
    | (Raise e, w1) => (Raise e, w1)
    end.
Proof.
  intros Hp Ho. unfold chat. io_unfold. rewrite Hp, Ho.
  rewrite bool_decide_false by (by intros []).
  fold (chat_history w project_id).
  pose proof (call_openrouter_llm_cases llm
    (chat_context project_data (chat_history w project_id) message) w) as Hc.
  destruct (completion_text _).
  - by rewrite Hc.
  - destruct Hc as (code & detail & ->). done.
Qed.

Lemma messages_path_ne project_id : messages_path project_id ≠ projects_path.
Proof. done. Qed.

(** The two writes, under fresh ids. *)
Lemma chat_writes project_id id_user id_assistant (user_doc assistant_doc : doc)
    (reply : string) w :
  (db w !!! messages_path project_id) !! id_user = None →
  (db w !!! messages_path project_id) !! id_assistant = None →
  id_user ≠ id_assistant →
  ∃ w',
    except_exception
      (doc_add (messages_path project_id) id_user user_doc;;
       doc_add (messages_path project_id) id_assistant assistant_doc;;
       mret reply) 500 "" w
    = (Return reply, w') ∧
    db w' !!! messages_path project_id
    = <[id_assistant := assistant_doc]>
        (<[id_user := user_doc]> (db w !!! messages_path project_id)) ∧
    db w' !!! projects_path = db w !!! projects_path ∧
    llm_requests w' = llm_requests w.
Proof.
  intros Hu Ha Hne. eexists. split; [|split; [|split]].
  - unfold doc_add. io_unfold. rewrite Hu. unfold doc_set at 1. simpl.
    rewrite lookup_total_insert_eq, lookup_insert_ne, Ha by done.
    unfold doc_set. reflexivity.
  - simpl. by rewrite !lookup_total_insert_eq.
  - simpl. rewrite !lookup_total_insert_ne; [done|apply messages_path_ne..].
  - done.
Qed.

Lemma get_chat_history_owner w project_id project_data user_id :
  (db w !!! projects_path) !! project_id = Some project_data →
  dict_get project_data "userId" = VStr user_id →
  get_chat_history project_id user_id w
  = (Return (history_dict <$> message_log w project_id), w).
Proof.
  intros Hp Ho. unfold get_chat_history. io_unfold. rewrite Hp, Ho.
  by rewrite bool_decide_false by (by intros []).
Qed.

(** *** [list_projects] *)

Lemma list_projects_cases type_error_text user_id w :
  let result := project_dict
                  <$> where_eq "userId" (VStr user_id)
                        (stream (db w !!! projects_path)) in
  list_projects type_error_text user_id w
  = if bool_decide (2 ≤ length result)%nat
       && bool_decide (Exists (λ x, pe_createdAt x = None) result)
    then (Raise (HTTPException 500
                   (type_error_text (pe_createdAt <$> result))), w)
    else (Return (sort_by (above (λ x, default "" (pe_createdAt x))) result),
          w).
Proof.
  intros result. unfold list_projects, sort_reverse. io_unfold.
  fold result. by destruct (_ && _).
Qed.

(** Every listed project is a document of the [projects] collection. *)
Lemma list_projects_listed type_error_text user_id w l w' entry :
  list_projects type_error_text user_id w = (Return l, w') →
  entry ∈ l →
  is_Some ((db w !!! projects_path) !! pe_id entry).
Proof.
  rewrite list_projects_cases. destruct (_ && _); [done|].
  intros [= <- <-]. rewrite elem_of_sort_by, list_elem_of_fmap.
  intros (s & -> & Hs). unfold where_eq in Hs.
  apply list_elem_of_filter in Hs as [_ Hs]. apply elem_of_stream in Hs.
  simpl. by rewrite Hs.
Qed.

(** *** [delete_project] *)

Lemma for_each_doc_delete path (l : list snapshot) w :
  ∃ w',
    for_each l (λ msg, doc_delete path (snap_id msg)) w = (Return (), w') ∧
    db w' !!! path = delete_snapshots (db w !!! path) l ∧
    (∀ p, p ≠ path → db w' !!! p = db w !!! p) ∧
    llm_requests w' = llm_requests w.
Proof.
  revert w. induction l as [|msg l IH]; intros w; simpl.
  - by exists w.
  - unfold mbind, io_bind, doc_delete at 1.
    destruct (IH (World (<[path := delete (snap_id msg) (db w !!! path)]> (db w))
                        (llm_requests w))) as (w' & Hrun & Hpath & Hother & Hreq).
    exists w'. split; [exact Hrun|]. simpl in *. split; [|split; [|done]].
    + by rewrite Hpath, lookup_total_insert_eq.
    + intros p Hp. by rewrite Hother, lookup_total_insert_ne.
Qed.

Lemma delete_snapshots_None (c : collection) l i :
  c !! i = None → delete_snapshots c l !! i = None.
Proof.
  revert c. induction l as [|msg l IH]; intros c Hi; simpl; [done|].
  apply IH. destruct (decide (snap_id msg = i)) as [->|Hne].
  - apply lookup_delete_eq.
  - by rewrite lookup_delete_ne.
Qed.

Lemma delete_snapshots_elem (c : collection) l s :
  s ∈ l → delete_snapshots c l !! snap_id s = None.
Proof.
  revert c. induction l as [|msg l IH]; intros c Hs; [by inv Hs|].
  simpl. apply elem_of_cons in Hs as [->|Hs]; [|by apply IH].
  apply delete_snapshots_None, lookup_delete_eq.
Qed.

(** Deleting every streamed document empties the collection. *)
Lemma delete_snapshots_stream (c : collection) :
  delete_snapshots c (stream c) = ∅.
Proof.
  apply map_eq. intros i. rewrite lookup_empty.
  destruct (c !! i) as [d|] eqn:Hi.
  - apply (delete_snapshots_elem c (stream c) (Snapshot i d)).
    by apply elem_of_stream.
  - by apply delete_snapshots_None.
Qed.

(** ** Properties of the conversation core *)

(** *** The history tail *)

Lemma chat_history_prefix w project_id :
  chat_history w project_id = take 20 (message_log w project_id).
Proof. reflexivity. Qed.

Lemma chat_history_length w project_id :
  (length (chat_history w project_id) ≤ 20)%nat.
Proof. rewrite chat_history_prefix, length_take. lia. Qed.

Lemma message_log_NoDup w project_id : NoDup (message_log w project_id).
Proof.
  unfold message_log. rewrite order_by_Permutation.
  apply NoDup_filter, stream_NoDup.
Qed.

(** Once a log holds more than twenty messages the history is its
    oldest twenty, and no longer its end. *)
Lemma chat_history_not_suffix w project_id :
  (20 < length (message_log w project_id))%nat →
  ¬ (chat_history w project_id `suffix_of` message_log w project_id).
Proof.
  rewrite chat_history_prefix. pose proof (message_log_NoDup w project_id) as Hnd.
  revert Hnd. generalize (message_log w project_id) as l.
  intros l Hnd Hlen [k Hk].
  assert (Hklen : length k = length l - 20).
  { apply (f_equal length) in Hk. rewrite length_app, length_take in Hk. lia. }
  destruct (lookup_lt_is_Some_2 l 0) as [x Hx]; [lia|].
  assert (Hx' : l !! (length k) = Some x).
  { rewrite Hk at 1. rewrite lookup_app_r, Nat.sub_diag by lia.
    rewrite lookup_take_lt by lia. done. }
  pose proof (NoDup_lookup _ _ _ _ Hnd Hx Hx'). lia.
Qed.

(** C1. The history tail of [chat] should be the end of the ordered log:
    at most twenty messages, the most recent ones. On a log of
    twenty-one messages [m1] ... [m21] the query
    [order_by("timestamp").limit(20)] yields [m1] ... [m20]: twenty
    messages, but the oldest ones; the tail is not a suffix of the log
    and the latest message [m21] is not sent to the completion
    endpoint. *)
Theorem chat_history_keeps_oldest :
  let log := message_log demo_world "p" in
  let tail := chat_history demo_world "p" in
  length log = 21 ∧
  tail = take 20 log ∧
  ¬ (tail `suffix_of` log) ∧
  (∃ latest, last log = Some latest ∧ (latest ∉ tail) ∧
             dict_get (to_dict latest) "content" = VStr "m21") ∧
  llm_requests (chat llm_hello "p" "hi" "alice" (demo_time 30) (demo_time 31)
                     "u" "a" demo_world).2
  = [chat_context (demo_project "alice" (demo_time 0)) (take 20 log) "hi"].
Proof.
  split; [|split; [|split; [|split]]].
  - by vm_compute.
  - by vm_compute.
  - apply (bool_decide_eq_false_1 _). by vm_compute.
  - eexists. split; [by vm_compute|]. split; [|by vm_compute].
    apply (bool_decide_eq_false_1 _). by vm_compute.
  - by vm_compute.
Qed.

(** *** A failed completion *)

(** C2. When the completion call fails (a timeout, a transport error,
    an answer other than 200 or one whose body does not decode), [chat]
    aborts with the error the completion client raised and the
    database, the message log of the project included, is as it was. *)
Theorem chat_completion_failure llm w project_id project_data user_id message
    now_user now_assistant id_user id_assistant :
  (db w !!! projects_path) !! project_id = Some project_data →
  dict_get project_data "userId" = VStr user_id →
  completion_text
    (llm (chat_context project_data (chat_history w project_id) message))
  = None →
  ∃ code detail w',
    call_openrouter_llm llm
      (chat_context project_data (chat_history w project_id) message) w
    = (Raise (HTTPException code detail), w') ∧
    chat llm project_id message user_id now_user now_assistant
         id_user id_assistant w
    = (Raise (HTTPException code detail), w') ∧
    db w' = db w ∧
    message_log w' project_id = message_log w project_id.
Proof.
  intros Hp Ho Hfail.
  pose proof (call_openrouter_llm_cases llm
    (chat_context project_data (chat_history w project_id) message) w) as Hc.
  rewrite Hfail in Hc. destruct Hc as (code & detail & Hc).
  eexists code, detail, _. split; [exact Hc|].
  rewrite (chat_owner _ _ _ _ _ _ _ _ _ _ Hp Ho), Hc. done.
Qed.

Lemma chat_completion_failure_witness :
  ∃ code detail w',
    chat llm_timeout "p" "again" "alice" (demo_time 30) (demo_time 31)
         "u" "a" small_world
    = (Raise (HTTPException code detail), w') ∧
    message_log w' "p" = message_log small_world "p".
Proof.
  destruct (chat_completion_failure llm_timeout small_world "p"
              (demo_project "alice" (demo_time 0)) "alice" "again"
              (demo_time 30) (demo_time 31) "u" "a")
    as (code & detail & w' & _ & Hchat & _ & Hlog).
  - reflexivity.
  - reflexivity.
  - reflexivity.
  - by exists code, detail, w'.
Defined.

(** *** The assembled context *)

(** C3. The context has [len(tail) + 2] entries; the first is the
    system entry with the project's system prompt (the empty string
    when the project has none); the last is the user entry with the new
    text; entry [i + 1] carries the role and content of the tail's
    entry [i], and there is nothing else. *)
Theorem chat_context_shape project_data (tail : list snapshot) text :
  let context := chat_context project_data tail text in
  length context = length tail + 2 ∧
  context !! 0 =
    Some (ChatEntry (VStr "system")
            (match project_data !! "systemPrompt" with
             | Some prompt => prompt
             | None => VStr ""
             end)) ∧
  last context = Some (ChatEntry (VStr "user") (VStr text)) ∧
  (∀ i msg, tail !! i = Some msg →
     context !! (S i) = Some (ChatEntry (dict_get (to_dict msg) "role")
                                        (dict_get (to_dict msg) "content"))) ∧
  (∀ i entry, context !! (S i) = Some entry → i < length tail + 1).
Proof.
  unfold chat_context. simpl. split; [|split; [|split; [|split]]].
  - rewrite length_app, length_fmap. simpl. lia.
  - unfold dict_get_or. by destruct (project_data !! "systemPrompt").
  - by rewrite last_cons, last_snoc.
  - intros i msg Hi. rewrite lookup_app_l.
    + by rewrite list_lookup_fmap, Hi.
    + rewrite length_fmap. by eapply lookup_lt_Some.
  - intros i entry Hi. apply lookup_lt_Some in Hi.
    rewrite length_app, length_fmap in Hi. simpl in Hi. lia.
Qed.

(** *** Status codes of completion failures *)

(** C4. A completion failure should surface with 504 for a timeout, the
    upstream status for an upstream error and 500 otherwise. For an
    upstream answer 429 with body [rate limited], [chat] raises 500,
    not 429: the [HTTPException] carrying the upstream status is caught
    by the [except Exception] clause of [call_openrouter_llm] (for
    every status other than 200, by [call_openrouter_llm_status]). A
    timeout does give 504 and a transport failure 500. *)
Theorem upstream_status_not_forwarded :
  (chat llm_rate_limited "p" "hi" "alice" (demo_time 30) (demo_time 31)
        "u" "a" small_world).1
  = Raise (HTTPException 500 "LLM error: 429: LLM API error: rate limited") ∧
  (chat llm_timeout "p" "hi" "alice" (demo_time 30) (demo_time 31)
        "u" "a" small_world).1
  = Raise (HTTPException 504 "LLM request timeout") ∧
  (chat llm_unreachable "p" "hi" "alice" (demo_time 30) (demo_time 31)
        "u" "a" small_world).1
  = Raise (HTTPException 500 "LLM error: connection refused").
Proof. repeat split; by vm_compute. Qed.

(** *** Ownership *)

(** C5. A chat request on a project owned by another user fails with
    403 and leaves the world as it was: no message is written, no
    request goes to the completion endpoint, the project is
    untouched. *)
Theorem chat_forbidden llm (w : world) project_id project_data owner caller
    message now_user now_assistant id_user id_assistant :
  (db w !!! projects_path) !! project_id = Some project_data →
  dict_get project_data "userId" = VStr owner →
  caller ≠ owner →
  chat llm project_id message caller now_user now_assistant
       id_user id_assistant w
  = (Raise (HTTPException 403 "Unauthorized access"), w).
Proof.
  intros Hp Ho Hne. unfold chat. io_unfold. rewrite Hp, Ho.
  rewrite bool_decide_true by congruence. done.
Qed.

Lemma chat_forbidden_witness :
  chat llm_hello "p" "hi" "bob" (demo_time 30) (demo_time 31) "u" "a"
       small_world
  = (Raise (HTTPException 403 "Unauthorized access"), small_world).
Proof.
  apply (chat_forbidden llm_hello small_world "p"
           (demo_project "alice" (demo_time 0)) "alice" "bob").
  - reflexivity.
  - reflexivity.
  - discriminate.
Defined.

(** *** A successful exchange *)

Lemma completion_text_Some r result :
  completion_text r = Some result →
  ∃ text, r = HttpResponse 200 text (inl result).
Proof.
  destruct r as [|msg|c text [result'|msg]]; simpl; try done.
  case_bool_decide; [|done]. intros [= ->]. subst c. by exists text.
Qed.

(** A request that succeeded was made by the owner of an existing
    project, got a 200 answer with a completion, and drew two fresh
    document ids. *)
Lemma chat_success_inv llm w project_id message user_id now_user
    now_assistant id_user id_assistant reply w' :
  chat llm project_id message user_id now_user now_assistant
       id_user id_assistant w
  = (Return reply, w') →
  ∃ project_data text,
    (db w !!! projects_path) !! project_id = Some project_data ∧
    dict_get project_data "userId" = VStr user_id ∧
    llm (chat_context project_data (chat_history w project_id) message)
    = HttpResponse 200 text (inl reply) ∧
    (db w !!! messages_path project_id) !! id_user = None ∧
    (db w !!! messages_path project_id) !! id_assistant = None ∧
    id_user ≠ id_assistant.
Proof.
  intros Hchat.
  destruct ((db w !!! projects_path) !! project_id) as [project_data|] eqn:Hp.
  2:{ unfold chat in Hchat. io_unfold_in Hchat. by rewrite Hp in Hchat. }
  destruct (decide (dict_get project_data "userId" = VStr user_id)) as [Ho|Ho].
  2:{ unfold chat in Hchat. io_unfold_in Hchat. rewrite Hp in Hchat.
      by rewrite bool_decide_true in Hchat. }
  rewrite (chat_owner _ _ _ _ _ _ _ _ _ _ Hp Ho) in Hchat.
  pose proof (call_openrouter_llm_cases llm
    (chat_context project_data (chat_history w project_id) message) w) as Hc.
  destruct (completion_text _) as [result|] eqn:Htext.
  2:{ destruct Hc as (code & detail & Hc). by rewrite Hc in Hchat. }
  rewrite Hc in Hchat. apply completion_text_Some in Htext as [text Htext].
  unfold doc_add in Hchat. io_unfold_in Hchat. simpl in Hchat.
  destruct ((db w !!! messages_path project_id) !! id_user) eqn:Hu; [done|].
  unfold doc_set at 1 in Hchat. simpl in Hchat.
  rewrite lookup_total_insert_eq in Hchat.
  destruct (decide (id_user = id_assistant)) as [->|Hne].
  { by rewrite lookup_insert_eq in Hchat. }
  rewrite lookup_insert_ne in Hchat by done.
  destruct ((db w !!! messages_path project_id) !! id_assistant) eqn:Ha;
    [done|].
  unfold doc_set in Hchat. injection Hchat as -> _.
  by exists project_data, text.
Qed.

(** What a request achieves when it meets these conditions and the
    clock moves forward. *)
Lemma chat_success llm w project_id project_data user_id message
    text reply now_user now_assistant id_user id_assistant :
  (db w !!! projects_path) !! project_id = Some project_data →
  dict_get project_data "userId" = VStr user_id →
  llm (chat_context project_data (chat_history w project_id) message)
  = HttpResponse 200 text (inl reply) →
  (db w !!! messages_path project_id) !! id_user = None →
  (db w !!! messages_path project_id) !! id_assistant = None →
  id_user ≠ id_assistant →
  (∀ s, s ∈ message_log w project_id →
        lexico (dict_get (to_dict s) "timestamp") (VTime now_user)) →
  lexico now_user now_assistant →
  ∃ w',
    chat llm project_id message user_id now_user now_assistant
         id_user id_assistant w
    = (Return reply, w') ∧
    db w' !!! messages_path project_id
    = <[id_assistant := message_doc "assistant" reply now_assistant]>
        (<[id_user := message_doc "user" message now_user]>
           (db w !!! messages_path project_id)) ∧
    message_log w' project_id
    = (message_log w project_id
       ++ [Snapshot id_user (message_doc "user" message now_user);
           Snapshot id_assistant
             (message_doc "assistant" reply now_assistant)])%list ∧
    get_chat_history project_id user_id w'
    = (Return ((history_dict <$> message_log w project_id)
               ++ [HistoryEntry (VStr "user") (VStr message)
                     (Some (isoformat now_user));
                   HistoryEntry (VStr "assistant") (VStr reply)
                     (Some (isoformat now_assistant))])%list, w').
Proof.
  intros Hp Ho Hllm Hu Ha Hne Hclock Hlt.
  destruct (chat_writes project_id id_user id_assistant
              (message_doc "user" message now_user)
              (message_doc "assistant" reply now_assistant) reply
              (World (db w)
                 (llm_requests w
                  ++ [chat_context project_data (chat_history w project_id)
                        message])%list))
    as (w' & Hrun & Hmsgs & Hprojects & _); [done..|].
  simpl in Hmsgs, Hprojects.
  assert (Hlog : message_log w' project_id
    = (message_log w project_id
       ++ [Snapshot id_user (message_doc "user" message now_user);
           Snapshot id_assistant
             (message_doc "assistant" reply now_assistant)])%list).
  { unfold message_log. rewrite Hmsgs.
    rewrite order_by_insert_last.
    - rewrite order_by_insert_last; [by rewrite <- app_assoc|done|by eexists|].
      intros s Hs. left. by apply Hclock.
    - by rewrite lookup_insert_ne.
    - by eexists.
    - intros s. rewrite order_by_insert_last; [|done|by eexists|].
      + intros [Hs| ->%list_elem_of_singleton]%elem_of_app; left.
        * trans (VTime now_user); [by apply Hclock|done].
        * done.
      + intros s' Hs'. left. by apply Hclock. }
  exists w'. split; [|split; [done|split; [done|]]].
  - rewrite (chat_owner _ _ _ _ _ _ _ _ _ _ Hp Ho).
    by rewrite (call_openrouter_llm_ok _ _ _ _ _ Hllm).
  - rewrite (get_chat_history_owner w' project_id project_data user_id);
      [|by rewrite Hprojects|done].
    by rewrite Hlog, fmap_app.
Qed.

(** C6. A successful chat request adds exactly two documents to the
    project's messages, under ids that were free, and the ordered log
    afterwards is the log before followed by the user message and then
    the assistant message, read back by [get_chat_history] with the
    same role and content. The clock is taken to move forward: its two
    readings are later than the timestamps already in the log and the
    second is later than the first. *)
Theorem chat_appends_exchange llm w project_id user_id message reply
    now_user now_assistant id_user id_assistant w' :
  chat llm project_id message user_id now_user now_assistant
       id_user id_assistant w
  = (Return reply, w') →
  (∀ s, s ∈ message_log w project_id →
        lexico (dict_get (to_dict s) "timestamp") (VTime now_user)) →
  lexico now_user now_assistant →
  (db w !!! messages_path project_id) !! id_user = None ∧
  (db w !!! messages_path project_id) !! id_assistant = None ∧
  id_user ≠ id_assistant ∧
  db w' !!! messages_path project_id
  = <[id_assistant := message_doc "assistant" reply now_assistant]>
      (<[id_user := message_doc "user" message now_user]>
         (db w !!! messages_path project_id)) ∧
  message_log w' project_id
  = (message_log w project_id
     ++ [Snapshot id_user (message_doc "user" message now_user);
         Snapshot id_assistant
           (message_doc "assistant" reply now_assistant)])%list ∧
  get_chat_history project_id user_id w'
  = (Return ((history_dict <$> message_log w project_id)
             ++ [HistoryEntry (VStr "user") (VStr message)
                   (Some (isoformat now_user));
                 HistoryEntry (VStr "assistant") (VStr reply)
                   (Some (isoformat now_assistant))])%list, w').
Proof.
  intros Hchat Hclock Hlt.
  destruct (chat_success_inv _ _ _ _ _ _ _ _ _ _ _ Hchat)
    as (project_data & text & Hp & Ho & Hllm & Hu & Ha & Hne).
  destruct (chat_success llm w project_id project_data user_id message
              text reply now_user now_assistant id_user id_assistant
              Hp Ho Hllm Hu Ha Hne Hclock Hlt)
    as (w'' & Hchat' & Hmsgs & Hlog & Hhistory).
  rewrite Hchat in Hchat'. injection Hchat' as <-. done.
Qed.

Lemma chat_appends_exchange_witness :
  (get_chat_history "p" "alice"
     (chat llm_hello "p" "again" "alice" (demo_time 30) (demo_time 31)
           "u" "a" small_world).2).1
  = Return [HistoryEntry (VStr "user") (VStr "hi")
              (Some "2024-01-01T12:00:01+00:00");
            HistoryEntry (VStr "assistant") (VStr "hello")
              (Some "2024-01-01T12:00:02+00:00");
            HistoryEntry (VStr "user") (VStr "again")
              (Some "2024-01-01T12:00:30+00:00");
            HistoryEntry (VStr "assistant") (VStr "hello")
              (Some "2024-01-01T12:00:31+00:00")].
Proof.
  destruct (chat_appends_exchange llm_hello small_world "p" "alice" "again"
              "hello" (demo_time 30) (demo_time 31) "u" "a"
              (chat llm_hello "p" "again" "alice" (demo_time 30)
                    (demo_time 31) "u" "a" small_world).2)
    as (_ & _ & _ & _ & _ & Hhistory).
  - by vm_compute.
  - apply Forall_forall. apply (bool_decide_unpack _). by vm_compute.
  - apply (bool_decide_unpack _). by vm_compute.
  - rewrite Hhistory. reflexivity.
Defined.

(** C6, without the condition on the clock. The log is ordered by the
    timestamps the handler reads from the clock, and by document id
    where they are equal; nothing else records the order of the writes.
    When the two readings are equal and the assistant's id is the
    smaller, the successful request is read back with the assistant
    message before the user message; when the first reading is
    earlier than the timestamps in the log, the user message is read
    back before the messages written earlier. *)
Lemma chat_exchange_out_of_order :
  let same := chat llm_hello "p" "again" "alice" (demo_time 30) (demo_time 30)
                   "u" "a" small_world in
  let stale := chat llm_hello "p" "again" "alice" (demo_time 0) (demo_time 31)
                    "u" "a" small_world in
  let hi := HistoryEntry (VStr "user") (VStr "hi")
              (Some "2024-01-01T12:00:01+00:00") in
  let hello := HistoryEntry (VStr "assistant") (VStr "hello")
                 (Some "2024-01-01T12:00:02+00:00") in
  (get_chat_history "p" "alice" small_world).1 = Return [hi; hello] ∧
  same.1 = Return "hello" ∧
  (get_chat_history "p" "alice" same.2).1
  = Return [hi; hello;
            HistoryEntry (VStr "assistant") (VStr "hello")
              (Some "2024-01-01T12:00:30+00:00");
            HistoryEntry (VStr "user") (VStr "again")
              (Some "2024-01-01T12:00:30+00:00")] ∧
  (get_chat_history "p" "alice" same.2).1
  ≠ Return [hi; hello;
            HistoryEntry (VStr "user") (VStr "again")
              (Some "2024-01-01T12:00:30+00:00");
            HistoryEntry (VStr "assistant") (VStr "hello")
              (Some "2024-01-01T12:00:30+00:00")] ∧
  stale.1 = Return "hello" ∧
  (get_chat_history "p" "alice" stale.2).1
  = Return [HistoryEntry (VStr "user") (VStr "again")
              (Some "2024-01-01T12:00:00+00:00");
            hi; hello;
            HistoryEntry (VStr "assistant") (VStr "hello")
              (Some "2024-01-01T12:00:31+00:00")] ∧
  (get_chat_history "p" "alice" stale.2).1
  ≠ Return [hi; hello;
            HistoryEntry (VStr "user") (VStr "again")
              (Some "2024-01-01T12:00:00+00:00");
            HistoryEntry (VStr "assistant") (VStr "hello")
              (Some "2024-01-01T12:00:31+00:00")].
Proof.
  cbv zeta.
  split; [by vm_compute|]. split; [by vm_compute|].
  split; [by vm_compute|]. split; [by vm_compute|].
  split; [by vm_compute|]. split; by vm_compute.
Qed.

(** The scenario of a first exchange: a new project, the message [hi],
    the completion [hello]. *)
Example first_exchange :
  let w1 := (create_project "demo" "You are helpful" "alice" (demo_time 0)
                            "p" (World ∅ [])).2 in
  let w2 := (chat llm_hello "p" "hi" "alice" (demo_time 1) (demo_time 2)
                  "u" "a" w1).2 in
  llm_requests w2
  = [[ChatEntry (VStr "system") (VStr "You are helpful");
      ChatEntry (VStr "user") (VStr "hi")]] ∧
  (get_chat_history "p" "alice" w2).1
  = Return [HistoryEntry (VStr "user") (VStr "hi")
              (Some "2024-01-01T12:00:01+00:00");
            HistoryEntry (VStr "assistant") (VStr "hello")
              (Some "2024-01-01T12:00:02+00:00")].
Proof. split; by vm_compute. Qed.

(** *** Deleting a project *)

(** C7. Deleting an owned project removes the project document and
    every message of its sub-collection: the ordered log is empty
    afterwards, [get_chat_history] answers 404, and no listing of
    projects contains the id. *)
Theorem delete_project_cascades w project_id user_id project_data :
  (db w !!! projects_path) !! project_id = Some project_data →
  dict_get project_data "userId" = VStr user_id →
  ∃ w',
    delete_project project_id user_id w = (Return (), w') ∧
    db w' !!! projects_path = delete project_id (db w !!! projects_path) ∧
    db w' !!! messages_path project_id = ∅ ∧
    message_log w' project_id = [] ∧
    get_chat_history project_id user_id w'
    = (Raise (HTTPException 404 "Project not found"), w') ∧
    (∀ type_error_text l w'',
       list_projects type_error_text user_id w' = (Return l, w'') →
       project_id ∉ pe_id <$> l).
Proof.
  intros Hp Ho.
  destruct (for_each_doc_delete (messages_path project_id)
              (stream (db w !!! messages_path project_id)) w)
    as (w1 & Hloop & Hmsgs & Hother & _).
  rewrite delete_snapshots_stream in Hmsgs.
  set (w' := World (<[projects_path := delete project_id (db w1 !!! projects_path)]> (db w1))
                   (llm_requests w1)).
  assert (Hprojects : db w' !!! projects_path
                      = delete project_id (db w !!! projects_path)).
  { simpl. rewrite lookup_total_insert_eq, Hother; [done|].
    apply not_eq_sym, messages_path_ne. }
  assert (Hempty : db w' !!! messages_path project_id = ∅).
  { simpl. rewrite lookup_total_insert_ne; [done|].
    apply not_eq_sym, messages_path_ne. }
  exists w'. split; [|split; [done|split; [done|split; [|split]]]].
  - unfold delete_project. io_unfold. rewrite Hp, Ho.
    rewrite bool_decide_false by (by intros []).
    unfold id. by rewrite Hloop.
  - unfold message_log. rewrite Hempty, stream_empty. done.
  - unfold get_chat_history. io_unfold.
    by rewrite Hprojects, lookup_delete_eq.
  - intros tet l w'' Hlist Hin. apply list_elem_of_fmap in Hin as (e & -> & He).
    destruct (list_projects_listed _ _ _ _ _ _ Hlist He) as [d Hd].
    by rewrite Hprojects, lookup_delete_eq in Hd.
Qed.

Lemma delete_project_cascades_witness :
  ∃ w',
    delete_project "p" "alice" small_world = (Return (), w') ∧
    message_log small_world "p" ≠ [] ∧
    message_log w' "p" = [] ∧
    (list_projects (λ _, "") "alice" w').1
    = Return [ProjectEntry "q" (VStr "demo") (VStr "You are helpful")
                (Some "2024-01-01T12:00:07+00:00") (VStr "alice")].
Proof.
  destruct (delete_project_cascades small_world "p" "alice"
              (demo_project "alice" (demo_time 0)) eq_refl eq_refl)
    as (w' & Hdel & _ & _ & Hlog & _ & _).
  exists w'. split; [exact Hdel|]. split; [by vm_compute|].
  split; [exact Hlog|].
  apply (f_equal snd) in Hdel. vm_compute in Hdel. subst w'.
  by vm_compute.
Defined.

(** *** The size limit of uploads *)

Lemma length_ten_mebibytes : Z.of_nat (length ten_mebibytes) = 10485760%Z.
Proof. unfold ten_mebibytes. rewrite length_replicate. apply N_nat_Z. Qed.

Lemma length_sample_b64encode bytes :
  String.length (sample_b64encode bytes) = length bytes.
Proof.
  unfold sample_b64encode. induction bytes as [|b bytes IH]; [done|].
  csimpl. by rewrite IH.
Qed.

Lemma string_size_pos s : (0 < string_size s)%Z.
Proof. unfold string_size. lia. Qed.

Lemma value_size_pos v : (0 < value_size v)%Z.
Proof. destruct v; simpl; try lia. apply string_size_pos. Qed.

(** A document is larger than any of its values. *)
Lemma document_size_field path id (data : doc) k v :
  data !! k = Some v → (value_size v < document_size path id data)%Z.
Proof.
  intros Hk. apply elem_of_map_to_list in Hk. unfold document_size.
  assert (Hname : (0 ≤ foldr (λ s acc, string_size s + acc) 16 (path ++ [id]))%Z).
  { induction (path ++ [id])%list as [|s l IH]; simpl; [lia|].
    pose proof (string_size_pos s). lia. }
  assert (Hfields : (value_size v
            < foldr (λ kv acc, string_size kv.1 + value_size kv.2 + acc) 32
                    (map_to_list data))%Z).
  { revert Hk. generalize (map_to_list data) as l.
    induction l as [|[k' v'] l IH]; intros Hk; [by inv Hk|]. simpl.
    assert (0 < foldr (λ kv acc, string_size kv.1 + value_size kv.2 + acc) 32 l)%Z.
    { clear. induction l as [|[k v] l IH]; simpl; [lia|].
      pose proof (string_size_pos k). pose proof (value_size_pos v). lia. }
    pose proof (string_size_pos k'). pose proof (value_size_pos v').
    apply elem_of_cons in Hk as [[= <- <-]|Hk]; [lia|].
    specialize (IH Hk). lia. }
  lia.
Qed.

(** A file above the limit of the handler is refused before anything
    is written. *)
Lemma upload_file_too_large b64encode w project_id project_data user_id
    file now file_id :
  (db w !!! projects_path) !! project_id = Some project_data →
  project_data !! "userId" = Some (VStr user_id) →
  (Z.of_nat (length (file_bytes file)) > MAX_FILE_SIZE)%Z →
  upload_file b64encode project_id file user_id now file_id w
  = (Raise (HTTPException 400 "File too large. Maximum size: 10.0MB"), w).
Proof.
  intros Hp Ho Hbig. unfold upload_file. io_unfold. rewrite Hp, Ho. simpl.
  rewrite bool_decide_false by (by intros []).
  by rewrite bool_decide_true.
Qed.

(** C8. An upload of more than 10 MiB (10 * 1024 * 1024 bytes) is
    rejected with 400 and no record is created; an upload of exactly
    10 MiB should succeed. It does not: the handler writes the whole
    file, base64-encoded, into one document, the store takes no
    document over 1 MiB, and the write of a file between 1 MiB and
    the handler's own limit of 10 MiB raises; the handler answers 500
    and no record is created. The encoder gives no less text than it
    takes bytes, as base64 does. *)
Theorem upload_file_store_limit b64encode w project_id project_data user_id
    file now file_id :
  (db w !!! projects_path) !! project_id = Some project_data →
  project_data !! "userId" = Some (VStr user_id) →
  (∀ bytes, (length bytes ≤ String.length (b64encode bytes))%nat) →
  let file_size := Z.of_nat (length (file_bytes file)) in
  MAX_FILE_SIZE = 10485760%Z ∧
  ((file_size > MAX_FILE_SIZE)%Z →
     upload_file b64encode project_id file user_id now file_id w
     = (Raise (HTTPException 400 "File too large. Maximum size: 10.0MB"), w)) ∧
  ((MAX_DOCUMENT_SIZE ≤ file_size ≤ MAX_FILE_SIZE)%Z →
     ∃ detail,
       upload_file b64encode project_id file user_id now file_id w
       = (Raise (HTTPException 500 detail), w)).
Proof.
  intros Hp Ho Hencode file_size. split; [reflexivity|]. split.
  - intros Hbig. by eapply upload_file_too_large.
  - intros [Hlow Hhigh]. eexists.
    unfold upload_file, doc_set_checked. io_unfold. rewrite Hp, Ho. simpl.
    rewrite bool_decide_false by (by intros []).
    fold file_size. rewrite bool_decide_false by lia.
    rewrite bool_decide_true; [reflexivity|].
    pose proof (document_size_field files_path file_id
                  (file_doc b64encode project_id user_id file now)
                  "contentBase64" (VStr (b64encode (file_bytes file)))
                  eq_refl) as Hsize.
    simpl in Hsize. unfold string_size in Hsize.
    specialize (Hencode (file_bytes file)). subst file_size. lia.
Qed.

Lemma upload_file_store_limit_witness :
  (∃ detail,
     upload_file sample_b64encode "p"
       (UploadFile (VStr "big.bin") (VStr "application/octet-stream")
                   ten_mebibytes)
       "alice" (demo_time 40) "f2" small_world
     = (Raise (HTTPException 500 detail), small_world)) ∧
  upload_file sample_b64encode "p"
     (UploadFile (VStr "big.bin") (VStr "application/octet-stream")
                 (Byte.x00 :: ten_mebibytes))
     "alice" (demo_time 40) "f2" small_world
  = (Raise (HTTPException 400 "File too large. Maximum size: 10.0MB"),
     small_world).
Proof.
  assert (Hencode : ∀ bytes,
            (length bytes ≤ String.length (sample_b64encode bytes))%nat)
    by (intros bytes; by rewrite length_sample_b64encode).
  generalize length_ten_mebibytes. generalize ten_mebibytes.
  intros bytes Hlen. split.
  - destruct (upload_file_store_limit sample_b64encode small_world "p"
                (demo_project "alice" (demo_time 0)) "alice"
                (UploadFile (VStr "big.bin") (VStr "application/octet-stream")
                            bytes)
                (demo_time 40) "f2" eq_refl eq_refl Hencode)
      as (_ & _ & Hstore).
    apply Hstore. cbn [file_bytes]. rewrite Hlen. by vm_compute.
  - destruct (upload_file_store_limit sample_b64encode small_world "p"
                (demo_project "alice" (demo_time 0)) "alice"
                (UploadFile (VStr "big.bin") (VStr "application/octet-stream")
                            (Byte.x00 :: bytes))
                (demo_time 40) "f2" eq_refl eq_refl Hencode)
      as (_ & Hbig & _).
    apply Hbig. cbn [file_bytes length].
    rewrite Nat2Z.inj_succ, Hlen. by vm_compute.
Defined.

(** *** The order of the project listing *)

(** C9. The listing is the caller's projects, each once, sorted so
    that no entry has a smaller [createdAt] string (compared by code
    point) than a later one; when the creation times are valid
    datetimes this is newest first. Every project of the caller
    carries a creation time. *)
Theorem list_projects_newest_first type_error_text user_id w :
  (∀ s, s ∈ owned_projects w user_id →
        dict_get (to_dict s) "createdAt" ≠ VNone) →
  ∃ projects,
    list_projects type_error_text user_id w
    = (Return (project_dict <$> projects), w) ∧
    projects ≡ₚ owned_projects w user_id ∧
    StronglySorted (λ a b, ¬ lexico (created_string a) (created_string b))
                   (project_dict <$> projects) ∧
    ((∀ s, s ∈ owned_projects w user_id →
           ∃ t, dict_get (to_dict s) "createdAt" = VTime t ∧ valid_datetime t) →
     StronglySorted (λ a b, ¬ lexico (dict_get (to_dict a) "createdAt")
                                     (dict_get (to_dict b) "createdAt"))
                    projects).
Proof.
  intros Hcreated.
  set (key := λ s : snapshot, created_string (project_dict s)).
  assert (Hmap : sort_by (above created_string)
                   (project_dict <$> owned_projects w user_id)
                 = project_dict
                     <$> sort_by (above key) (owned_projects w user_id))
    by apply (sort_by_fmap (above created_string) project_dict).
  exists (sort_by (above key) (owned_projects w user_id)).
  split; [|split; [|split]].
  - rewrite list_projects_cases. fold (owned_projects w user_id).
    rewrite (bool_decide_false (Exists _ _)), andb_false_r.
    + by rewrite <- Hmap.
    + rewrite Exists_exists. intros (e & [s [-> Hs]]%list_elem_of_fmap & He).
      apply Hcreated in Hs. simpl in He.
      by destruct (dict_get (to_dict s) "createdAt").
  - apply sort_by_Permutation.
  - rewrite <- Hmap. apply (sort_by_sorted (above created_string)).
  - intros Htimes.
    eapply StronglySorted_weaken; [|apply (sort_by_sorted (above key))].
    intros a b Ha Hb Hab Hlt. apply Hab. clear Hab.
    rewrite elem_of_sort_by in Ha, Hb.
    destruct (Htimes a Ha) as (ta & Hta & Hva), (Htimes b Hb) as (tb & Htb & Hvb).
    unfold key, created_string, project_dict. simpl.
    rewrite Hta, Htb in *. simpl. by apply isoformat_mono.
Qed.

Lemma list_projects_newest_first_witness :
  ∃ projects,
    list_projects (λ _, "") "alice" small_world
    = (Return (project_dict <$> projects), small_world) ∧
    snap_id <$> projects = ["q"; "p"] ∧
    StronglySorted (λ a b, ¬ lexico (created_string a) (created_string b))
                   (project_dict <$> projects) ∧
    StronglySorted (λ a b, ¬ lexico (dict_get (to_dict a) "createdAt")
                                    (dict_get (to_dict b) "createdAt"))
                   projects.
Proof.
  assert (Howned : owned_projects small_world "alice"
                   = [Snapshot "p" (demo_project "alice" (demo_time 0));
                      Snapshot "q" (demo_project "alice" (demo_time 7))])
    by (by vm_compute).
  destruct (list_projects_newest_first (λ _, "") "alice" small_world)
    as (projects & Hlist & _ & Hstrings & Htimes).
  - rewrite Howned. apply Forall_forall. by repeat constructor.
  - exists projects. split; [exact Hlist|]. split; [|split; [exact Hstrings|]].
    + assert (Hrun : list_projects (λ _, "") "alice" small_world
                     = (Return (project_dict
                          <$> [Snapshot "q" (demo_project "alice" (demo_time 7));
                               Snapshot "p" (demo_project "alice" (demo_time 0))]),
                        small_world)) by (by vm_compute).
      rewrite Hlist in Hrun. injection Hrun as Hrun.
      apply (f_equal (fmap pe_id)) in Hrun.
      by rewrite <- !list_fmap_compose in Hrun.
    + apply Htimes. rewrite Howned. apply Forall_forall.
      repeat constructor; eexists; (split; [reflexivity|]);
        unfold valid_datetime; simpl; lia.
Defined.

(** *** Deleting a file *)

(** C10. When the caller owns the addressed project, the file exists
    and its [projectId] is the addressed project, [delete_file]
    deletes it; the file's own [userId] is never read. *)
Theorem delete_file_ignores_file_owner w project_id file_id user_id
    project_data file_data :
  (db w !!! projects_path) !! project_id = Some project_data →
  project_data !! "userId" = Some (VStr user_id) →
  (db w !!! files_path) !! file_id = Some file_data →
  file_data !! "projectId" = Some (VStr project_id) →
  ∃ w',
    delete_file project_id file_id user_id w = (Return file_id, w') ∧
    db w' !!! files_path = delete file_id (db w !!! files_path) ∧
    (db w' !!! files_path) !! file_id = None.
Proof.
  intros Hp Ho Hf Hfp. eexists. split; [|split].
  - unfold delete_file, doc_delete. io_unfold. rewrite Hp, Ho. simpl.
    rewrite bool_decide_false by (by intros []).
    rewrite Hf, Hfp. simpl.
    rewrite bool_decide_false by (by intros []). reflexivity.
  - simpl. by rewrite lookup_total_insert_eq.
  - simpl. by rewrite lookup_total_insert_eq, lookup_delete_eq.
Qed.

Lemma delete_file_ignores_file_owner_witness :
  dict_get (<["projectId" := VStr "p"]> (<["userId" := VStr "bob"]> ∅))
           "userId" = VStr "bob" ∧
  ∃ w', delete_file "p" "f1" "alice" small_world = (Return "f1", w') ∧
        (db w' !!! files_path) !! "f1" = None.
Proof.
  split; [reflexivity|].
  destruct (delete_file_ignores_file_owner small_world "p" "f1" "alice"
              (demo_project "alice" (demo_time 0))
              (<["projectId" := VStr "p"]> (<["userId" := VStr "bob"]> ∅)))
    as (w' & Hdel & _ & Hgone).
  - reflexivity.
  - reflexivity.
  - reflexivity.
  - reflexivity.
  - by exists w'.
Defined.

(** ** More of the backend *)

(** *** The bearer token *)

Lemma append_nil_r (s : string) : s +:+ "" = s.
Proof.
  induction s as [|c s IH]; [done|].
  change (String c (s +:+ "") = String c s). by rewrite IH.
Qed.

Lemma append_assoc (s t u : string) : (s +:+ t) +:+ u = s +:+ (t +:+ u).
Proof.
  induction s as [|c s IH]; [done|].
  change (String c ((s +:+ t) +:+ u) = String c (s +:+ (t +:+ u))).
  by rewrite IH.
Qed.

(** A text without the separator is one piece. *)
Lemma split_from_free sep s cur :
  occurs sep s = false → split_from sep s 0 cur = [cur +:+ s].
Proof.
  revert cur. induction s as [|c s IH]; intros cur Hs.
  - simpl. by rewrite append_nil_r.
  - cbn [occurs] in Hs. apply orb_false_iff in Hs as [Hp Hs].
    cbn [split_from]. rewrite Hp, IH by done.
    by rewrite append_assoc.
Qed.

Lemma prefix_nil s : String.prefix "" s = true.
Proof. by destruct s. Qed.

Lemma prefix_app p s : String.prefix p (p +:+ s) = true.
Proof.
  induction p as [|c p IH]; [apply prefix_nil|].
  change (String c p +:+ s) with (String c (p +:+ s)). simpl.
  by destruct (Ascii.ascii_dec c c).
Qed.

(** The characters of a separator just found are passed over. *)
Lemma split_from_skip sep pre rest cur :
  split_from sep (pre +:+ rest) (String.length pre) cur
  = split_from sep rest 0 cur.
Proof.
  induction pre as [|c pre IH]; [done|].
  change (String c pre +:+ rest) with (String c (pre +:+ rest)).
  simpl. apply IH.
Qed.

(** A text that starts with the separator: the piece read so far ends
    there. *)
Lemma split_from_sep c sep rest cur :
  split_from (String c sep) (String c sep +:+ rest) 0 cur
  = cur :: split_from (String c sep) rest 0 "".
Proof.
  change (String c sep +:+ rest) with (String c (sep +:+ rest)).
  cbn [split_from].
  change (String c (sep +:+ rest)) with (String c sep +:+ rest).
  rewrite prefix_app.
  replace (String.length (String c sep) - 1)%nat with (String.length sep)
    by (simpl; lia).
  by rewrite split_from_skip.
Qed.

Lemma split_bearer rest :
  split ("Bearer " +:+ rest) "Bearer " = "" :: split rest "Bearer ".
Proof. apply split_from_sep. Qed.

Lemma prefix_inv p s :
  String.prefix p s = true → ∃ rest, s = p +:+ rest.
Proof.
  revert s. induction p as [|c p IH]; intros s Hp.
  - by exists s.
  - destruct s as [|c' s]; [done|]. simpl in Hp.
    destruct (Ascii.ascii_dec c c') as [->|]; [|done].
    destruct (IH _ Hp) as [rest ->]. by exists rest.
Qed.

(** X1. [verify_token] answers a user id only when the header starts
    with [Bearer ] and the provider verified the piece that follows, up
    to the next [Bearer ] if there is one; every failure is a 401. *)
Theorem verify_token_sound provider authorization :
  match verify_token provider authorization with
  | Return uid =>
      ∃ token rest,
        authorization = "Bearer " +:+ rest ∧
        split rest "Bearer " !! 0%nat = Some token ∧
        provider token = TokenVerified uid
  | Raise e => ∃ detail, e = HTTPException 401 detail
  end.
Proof.
  unfold verify_token, startswith.
  destruct (String.prefix "Bearer " authorization) eqn:Hp; simpl; [|by eexists].
  apply prefix_inv in Hp as [rest ->]. rewrite split_bearer. simpl.
  destruct (split rest "Bearer " !! 0%nat) as [token|] eqn:Htoken; [|by eexists].
  destruct (provider token) as [uid|e] eqn:Hprov.
  - by exists token, rest.
  - destruct (is_invalid_id_token e), (is_expired_id_token e); by eexists.
Qed.

(** X2. For a token that does not contain [Bearer ], the header
    [Bearer <token>] is answered by the provider's verdict on exactly
    that token. *)
Theorem verify_token_bearer provider token :
  occurs "Bearer " token = false →
  verify_token provider ("Bearer " +:+ token)
  = match provider token with
    | TokenVerified uid => Return uid
    | TokenRejected e =>
        if is_invalid_id_token e
        then Raise (HTTPException 401 "Invalid Firebase token")
        else if is_expired_id_token e
        then Raise (HTTPException 401 "Token expired")
        else Raise (HTTPException 401
                      ("Authentication failed: " +:+ auth_error_text e))
    end.
Proof.
  intros Hfree. unfold verify_token, startswith.
  rewrite prefix_app. cbn [negb]. rewrite split_bearer. unfold split.
  by rewrite split_from_free.
Qed.

Lemma verify_token_bearer_witness :
  verify_token sample_provider "Bearer good.token" = Return "alice".
Proof. apply (verify_token_bearer sample_provider "good.token"). reflexivity. Defined.

(** *** Profiles *)

(** X3. A user without a profile document gets 400 from
    [get_current_user], not 404: the 404 raised inside the [try] is
    caught by its only [except] clause. A stored profile is returned
    with the user id added. *)
Theorem get_current_user_missing_is_400 user_id w :
  match (db w !!! users_path) !! user_id with
  | None =>
      ∃ detail,
        get_current_user user_id w = (Raise (HTTPException 400 detail), w)
  | Some data =>
      ∃ profile,
        get_current_user user_id w = (Return profile, w) ∧
        (data !! "uid" = None → profile !! "uid" = Some (VStr user_id)) ∧
        (∀ k, k ≠ "createdAt" → is_Some (data !! k) →
              profile !! k = data !! k)
  end.
Proof.
  unfold get_current_user. io_unfold.
  destruct ((db w !!! users_path) !! user_id) as [data|]; [|by eexists].
  eexists. split; [reflexivity|]. split.
  - intros Huid. apply lookup_union_Some_raw. right.
    split; [|by rewrite lookup_singleton_eq].
    destruct (data !! "createdAt"); [by rewrite lookup_insert_ne|done].
  - intros k Hk [v Hv]. rewrite Hv. apply lookup_union_Some_raw. left.
    destruct (data !! "createdAt"); [by rewrite lookup_insert_ne|done].
Qed.

(** X4. When the provider creates the user, [register] stores a profile
    holding the email, the display name and the creation time, and no
    password; [get_current_user] then returns it with the time as an
    ISO string and the user id. When the provider refuses, the answer
    is a 400 and nothing is stored. *)
Theorem register_profile create_user email password display_name now w :
  match create_user email password display_name with
  | UserCreated uid =>
      ∃ w',
        register create_user email password display_name now w
        = (Return uid, w') ∧
        (db w' !!! users_path) !! uid
        = Some (<["email" := VStr email]> (<["displayName" := display_name]>
                (<["createdAt" := VTime now]> ∅))) ∧
        get_current_user uid w'
        = (Return (<["uid" := VStr uid]> (<["email" := VStr email]>
                   (<["displayName" := display_name]>
                   (<["createdAt" := VStr (isoformat now)]> ∅)))), w')
  | _ =>
      ∃ detail,
        register create_user email password display_name now w
        = (Raise (HTTPException 400 detail), w)
  end.
Proof.
  unfold register.
  destruct (create_user email password display_name) as [uid| |msg];
    [|by eexists..].
  eexists. split; [reflexivity|].
  assert (Hstored : (db (World (<[users_path :=
             <[uid := <["email" := VStr email]>
                        (<["displayName" := display_name]>
                         (<["createdAt" := VTime now]> ∅))]>
               (db w !!! users_path)]> (db w)) (llm_requests w))
            !!! users_path) !! uid
          = Some (<["email" := VStr email]> (<["displayName" := display_name]>
                  (<["createdAt" := VTime now]> ∅)))).
  { simpl. by rewrite lookup_total_insert_eq, lookup_insert_eq. }
  split; [exact Hstored|].
  unfold get_current_user. io_unfold. rewrite Hstored.
  reflexivity.
Qed.

(** *** Projects *)



(** X6. Whatever [list_projects] returns is the caller's projects, each
    once and no other: every entry carries the caller's id as [userId]
    and is the image of a stored document; the store is not
    changed. *)
Theorem list_projects_isolation type_error_text user_id w l w' :
  list_projects type_error_text user_id w = (Return l, w') →
  w' = w ∧
  l ≡ₚ project_dict <$> owned_projects w user_id ∧
  ∀ entry, entry ∈ l →
    pe_userId entry = VStr user_id ∧
    ∃ data, (db w !!! projects_path) !! pe_id entry = Some data ∧
            entry = project_dict (Snapshot (pe_id entry) data).
Proof.
  rewrite list_projects_cases. fold (owned_projects w user_id).
  destruct (_ && _); [done|]. intros [= <- <-].
  split; [done|]. split; [apply sort_by_Permutation|].
  intros entry. rewrite elem_of_sort_by, list_elem_of_fmap.
  intros (s & -> & Hs). apply elem_of_owned_projects in Hs as [Hdoc Howner].
  split.
  - simpl. unfold dict_get. by rewrite Howner.
  - exists (to_dict s). split; [done|]. by destruct s.
Qed.

Lemma list_projects_isolation_witness :
  Forall (λ entry, pe_userId entry = VStr "alice")
    [ProjectEntry "q" (VStr "demo") (VStr "You are helpful")
       (Some "2024-01-01T12:00:07+00:00") (VStr "alice");
     ProjectEntry "p" (VStr "demo") (VStr "You are helpful")
       (Some "2024-01-01T12:00:00+00:00") (VStr "alice")].
Proof.
  apply Forall_forall. intros entry Hentry.
  by destruct (list_projects_isolation (λ _, "") "alice" small_world _
                 small_world ltac:(by vm_compute)) as (_ & _ & Hall);
    destruct (Hall entry Hentry).
Defined.

(** X7. [list_projects] fails, with a 500, exactly when the caller has
    two or more projects and one of them has no creation time: the
    sort then compares [None] with another key. With a single project
    the listing succeeds whatever the project holds. *)
Theorem list_projects_fails_iff type_error_text user_id w :
  (∃ detail, list_projects type_error_text user_id w
             = (Raise (HTTPException 500 detail), w)) ↔
  (2 ≤ length (owned_projects w user_id))%nat ∧
  ∃ s, s ∈ owned_projects w user_id ∧
       dict_get (to_dict s) "createdAt" = VNone.
Proof.
  rewrite list_projects_cases. fold (owned_projects w user_id).
  rewrite length_fmap.
  assert (Hex : Exists (λ x, pe_createdAt x = None)
                  (project_dict <$> owned_projects w user_id)
                ↔ ∃ s, s ∈ owned_projects w user_id ∧
                       dict_get (to_dict s) "createdAt" = VNone).
  { rewrite Exists_exists. split.
    - intros (e & [s [-> Hs]]%list_elem_of_fmap & He). exists s. split; [done|].
      simpl in He. by destruct (dict_get (to_dict s) "createdAt").
    - intros (s & Hs & Hnone). exists (project_dict s).
      split; [by apply list_elem_of_fmap_2|]. simpl. by rewrite Hnone. }
  rewrite <- Hex. clear Hex.
  destruct (bool_decide _ && bool_decide _) eqn:Hb.
  - apply andb_true_iff in Hb as [H1 H2].
    apply bool_decide_eq_true in H1, H2. split; [done|by eexists].
  - split; [by intros [? ?]|]. intros [H1 H2].
    apply andb_false_iff in Hb as [Hb|Hb]; apply bool_decide_eq_false in Hb;
      done.
Qed.

(** *** The guard of the project handlers *)

(** X8. Every handler addressed to a project answers 404 when the
    project does not exist, and leaves the world as it was; [chat]
    makes no completion request. *)
Theorem project_not_found llm b64encode w project_id user_id :
  (db w !!! projects_path) !! project_id = None →
  get_project project_id user_id w
  = (Raise (HTTPException 404 "Project not found"), w) ∧
  delete_project project_id user_id w
  = (Raise (HTTPException 404 "Project not found"), w) ∧
  (∀ message now_user now_assistant id_user id_assistant,
     chat llm project_id message user_id now_user now_assistant
          id_user id_assistant w
     = (Raise (HTTPException 404 "Project not found"), w)) ∧
  get_chat_history project_id user_id w
  = (Raise (HTTPException 404 "Project not found"), w) ∧
  (∀ file now file_id,
     upload_file b64encode project_id file user_id now file_id w
     = (Raise (HTTPException 404 "Project not found"), w)) ∧
  list_files project_id user_id w
  = (Raise (HTTPException 404 "Project not found"), w) ∧
  (∀ file_id,
     delete_file project_id file_id user_id w
     = (Raise (HTTPException 404 "Project not found"), w)).
Proof.
  intros Hp.
  unfold get_project, delete_project, chat, get_chat_history, upload_file,
    list_files, delete_file.
  io_unfold. rewrite Hp. done.
Qed.

Lemma project_not_found_witness :
  delete_project "zzz" "alice" small_world
  = (Raise (HTTPException 404 "Project not found"), small_world) ∧
  list_files "zzz" "alice" small_world
  = (Raise (HTTPException 404 "Project not found"), small_world).
Proof.
  destruct (project_not_found llm_hello (λ _, "") small_world "zzz" "alice")
    as (_ & Hdel & _ & _ & _ & Hlist & _); [reflexivity|].
  by split.
Defined.

(** X9. A user who is not the owner of an existing project is refused
    with 403 by every handler addressed to the project, and nothing is
    read for them or changed: no project or message is deleted, no
    file stored, listed or deleted. *)
Theorem foreign_project_refused b64encode w project_id project_data
    owner caller :
  (db w !!! projects_path) !! project_id = Some project_data →
  project_data !! "userId" = Some (VStr owner) →
  caller ≠ owner →
  get_project project_id caller w
  = (Raise (HTTPException 403 "Unauthorized access"), w) ∧
  delete_project project_id caller w
  = (Raise (HTTPException 403 "Unauthorized access"), w) ∧
  get_chat_history project_id caller w
  = (Raise (HTTPException 403 "Unauthorized access"), w) ∧
  (∀ file now file_id,
     upload_file b64encode project_id file caller now file_id w
     = (Raise (HTTPException 403 "Access denied"), w)) ∧
  list_files project_id caller w
  = (Raise (HTTPException 403 "Access denied"), w) ∧
  (∀ file_id, delete_file project_id file_id caller w
              = (Raise (HTTPException 403 "Access denied"), w)).
Proof.
  intros Hp Ho Hne.
  assert (Hget : dict_get project_data "userId" = VStr owner)
    by (unfold dict_get; by rewrite Ho).
  unfold get_project, delete_project, get_chat_history, upload_file,
    list_files, delete_file.
  io_unfold. rewrite Hp, Hget, Ho. simpl.
  rewrite !bool_decide_true by congruence. done.
Qed.

Lemma foreign_project_refused_witness :
  delete_project "p" "bob" small_world
  = (Raise (HTTPException 403 "Unauthorized access"), small_world) ∧
  delete_file "p" "f1" "bob" small_world
  = (Raise (HTTPException 403 "Access denied"), small_world).
Proof.
  destruct (foreign_project_refused (λ _, "") small_world "p"
              (demo_project "alice" (demo_time 0)) "alice" "bob")
    as (_ & Hdel & _ & _ & _ & Hfile); [reflexivity|reflexivity|discriminate|].
  split; [exact Hdel|apply Hfile].
Defined.

(** X10. A project document without a [userId] field belongs to nobody:
    the handlers that read the owner with [.get] answer 403 to every
    user, the file handlers, which index the document, answer 500. *)
Theorem ownerless_project b64encode llm w project_id project_data user_id :
  (db w !!! projects_path) !! project_id = Some project_data →
  project_data !! "userId" = None →
  get_project project_id user_id w
  = (Raise (HTTPException 403 "Unauthorized access"), w) ∧
  delete_project project_id user_id w
  = (Raise (HTTPException 403 "Unauthorized access"), w) ∧
  get_chat_history project_id user_id w
  = (Raise (HTTPException 403 "Unauthorized access"), w) ∧
  (∀ message now_user now_assistant id_user id_assistant,
     chat llm project_id message user_id now_user now_assistant
          id_user id_assistant w
     = (Raise (HTTPException 403 "Unauthorized access"), w)) ∧
  (∀ file now file_id,
     upload_file b64encode project_id file user_id now file_id w
     = (Raise (HTTPException 500 "File upload failed: 'userId'"), w)) ∧
  list_files project_id user_id w
  = (Raise (HTTPException 500 "Failed to fetch files: 'userId'"), w) ∧
  (∀ file_id,
     delete_file project_id file_id user_id w
     = (Raise (HTTPException 500 "Failed to delete file: 'userId'"), w)).
Proof.
  intros Hp Ho.
  assert (Hget : dict_get project_data "userId" = VNone)
    by (unfold dict_get; by rewrite Ho).
  unfold get_project, delete_project, get_chat_history, chat, upload_file,
    list_files, delete_file.
  io_unfold. rewrite Hp, Hget, Ho. simpl. done.
Qed.

Lemma ownerless_project_witness :
  get_chat_history "p" "alice" ownerless_world
  = (Raise (HTTPException 403 "Unauthorized access"), ownerless_world) ∧
  list_files "p" "alice" ownerless_world
  = (Raise (HTTPException 500 "Failed to fetch files: 'userId'"),
     ownerless_world).
Proof.
  destruct (ownerless_project (λ _, "") llm_hello ownerless_world "p"
              (<["name" := VStr "demo"]> ∅) "alice")
    as (_ & _ & Hhist & _ & _ & Hlist & _); [reflexivity|reflexivity|].
  by split.
Defined.

(** *** What [delete_project] leaves behind *)

(** X11. Deleting a project touches the project document and its own
    messages only: every other project, the messages of other
    projects, the profiles and the files are as before. The files of
    the deleted project stay in the store, and the handlers no longer
    reach them: [delete_file] and [list_files] answer 404. *)
Theorem delete_project_frame w project_id user_id project_data :
  (db w !!! projects_path) !! project_id = Some project_data →
  dict_get project_data "userId" = VStr user_id →
  ∃ w',
    delete_project project_id user_id w = (Return (), w') ∧
    (∀ other, other ≠ project_id →
       (db w' !!! projects_path) !! other = (db w !!! projects_path) !! other) ∧
    (∀ path, path ≠ projects_path → path ≠ messages_path project_id →
       db w' !!! path = db w !!! path) ∧
    db w' !!! files_path = db w !!! files_path ∧
    llm_requests w' = llm_requests w ∧
    list_files project_id user_id w'
    = (Raise (HTTPException 404 "Project not found"), w') ∧
    (∀ file_id,
       delete_file project_id file_id user_id w'
       = (Raise (HTTPException 404 "Project not found"), w')).
Proof.
  intros Hp Ho.
  destruct (for_each_doc_delete (messages_path project_id)
              (stream (db w !!! messages_path project_id)) w)
    as (w1 & Hloop & _ & Hother & Hreq).
  set (w' := World (<[projects_path :=
                       delete project_id (db w1 !!! projects_path)]> (db w1))
                   (llm_requests w1)).
  assert (Hrun : delete_project project_id user_id w = (Return (), w')).
  { unfold delete_project. io_unfold. rewrite Hp, Ho.
    rewrite bool_decide_false by (by intros []).
    unfold id. by rewrite Hloop. }
  assert (Hprojects : db w' !!! projects_path
                      = delete project_id (db w !!! projects_path)).
  { simpl. rewrite lookup_total_insert_eq, Hother; [done|].
    apply not_eq_sym, messages_path_ne. }
  assert (Hpaths : ∀ path, path ≠ projects_path →
                     path ≠ messages_path project_id →
                     db w' !!! path = db w !!! path).
  { intros path H1 H2. simpl. rewrite lookup_total_insert_ne by done.
    by apply Hother. }
  assert (Hgone : (db w' !!! projects_path) !! project_id = None)
    by (by rewrite Hprojects, lookup_delete_eq).
  exists w'. split; [done|]. split; [|split; [done|split; [|split; [done|]]]].
  - intros other Hne. by rewrite Hprojects, lookup_delete_ne.
  - by apply Hpaths.
  - unfold list_files, delete_file. io_unfold. by rewrite Hgone.
Qed.

Lemma delete_project_frame_witness :
  ∃ w',
    delete_project "p" "alice" small_world = (Return (), w') ∧
    is_Some ((db w' !!! files_path) !! "f1") ∧
    is_Some ((db w' !!! projects_path) !! "q") ∧
    delete_file "p" "f1" "alice" w'
    = (Raise (HTTPException 404 "Project not found"), w').
Proof.
  destruct (delete_project_frame small_world "p" "alice"
              (demo_project "alice" (demo_time 0)) eq_refl eq_refl)
    as (w' & Hdel & Hprojects & _ & Hfiles & _ & _ & Hfile).
  exists w'. split; [exact Hdel|]. split; [|split; [|apply Hfile]].
  - rewrite Hfiles. by eexists.
  - rewrite Hprojects by done. by eexists.
Defined.

(** *** The completion client and [chat] *)

(** X12. [call_openrouter_llm] makes one request and never retries; it
    returns the completion of a 200 answer, raises 504 exactly when
    the request timed out and raises 500 for everything else, an
    upstream answer other than 200 included. The database is not
    touched. *)
Theorem call_openrouter_llm_outcomes llm messages w :
  ∃ out,
    call_openrouter_llm llm messages w
    = (out, World (db w) (llm_requests w ++ [messages])) ∧
    match out with
    | Return result =>
        ∃ text, llm messages = HttpResponse 200 text (inl result)
    | Raise e =>
        ∃ code detail,
          e = HTTPException code detail ∧
          (code = 504%Z ∧ llm messages = HttpTimeout ∨
           code = 500%Z ∧ llm messages ≠ HttpTimeout)
    end.
Proof.
  destruct (llm messages) as [|msg|c text [result|msg]] eqn:Hr.
  - eexists. split; [by apply call_openrouter_llm_timeout|].
    eexists _, _. split; [done|]. by left.
  - eexists. split; [by eapply call_openrouter_llm_failure|].
    eexists _, _. split; [done|]. by right.
  - destruct (decide (c = 200%Z)) as [->|Hc].
    + eexists. split; [by eapply call_openrouter_llm_ok|]. by eexists.
    + eexists. split; [by eapply call_openrouter_llm_status|].
      eexists _, _. split; [done|]. by right.
  - destruct (decide (c = 200%Z)) as [->|Hc].
    + eexists. split; [by eapply call_openrouter_llm_undecodable|].
      eexists _, _. split; [done|]. by right.
    + eexists. split; [by eapply call_openrouter_llm_status|].
      eexists _, _. split; [done|]. by right.
Qed.

(** The world after the two writes, whatever becomes of them. *)
Lemma chat_writes_world project_id id_user id_assistant
    (user_doc assistant_doc : doc) (reply : string) w :
  ∃ out w',
    except_exception
      (doc_add (messages_path project_id) id_user user_doc;;
       doc_add (messages_path project_id) id_assistant assistant_doc;;
       mret reply) 500 "" w
    = (out, w') ∧
    llm_requests w' = llm_requests w ∧
    ∀ path, path ≠ messages_path project_id → db w' !!! path = db w !!! path.
Proof.
  unfold doc_add. io_unfold.
  destruct ((db w !!! messages_path project_id) !! id_user);
    [by eexists _, _|].
  unfold doc_set at 1. cbn [db llm_requests].
  destruct ((<[messages_path project_id := _]> (db w)
             !!! messages_path project_id) !! id_assistant).
  - eexists _, _. split; [done|]. split; [done|].
    intros path Hpath. simpl. by rewrite lookup_total_insert_ne.
  - eexists _, _. split; [done|]. split; [done|].
    intros path Hpath. simpl. by rewrite !lookup_total_insert_ne.
Qed.


(** X13. Whatever its outcome, [chat] changes nothing but the messages
    of the addressed project: projects, files, profiles and the
    messages of other projects are as before. For the owner of the
    project it makes exactly one completion request, the assembled
    context. *)
Theorem chat_frame llm w project_id message user_id now_user now_assistant
    id_user id_assistant :
  let w' := (chat llm project_id message user_id now_user now_assistant
                  id_user id_assistant w).2 in
  (∀ path, path ≠ messages_path project_id → db w' !!! path = db w !!! path) ∧
  (∀ project_data,
     (db w !!! projects_path) !! project_id = Some project_data →
     dict_get project_data "userId" = VStr user_id →
     llm_requests w'
     = (llm_requests w
        ++ [chat_context project_data (chat_history w project_id) message])%list).
Proof.
  intros w'. subst w'.
  destruct ((db w !!! projects_path) !! project_id) as [project_data|] eqn:Hp.
  2:{ unfold chat. io_unfold. rewrite Hp. simpl. by split. }
  destruct (decide (dict_get project_data "userId" = VStr user_id)) as [Ho|Ho].
  2:{ unfold chat. io_unfold. rewrite Hp.
      rewrite bool_decide_true by done. simpl. split; [done|].
      by intros ? [= <-]. }
  rewrite (chat_owner _ _ _ _ _ _ _ _ _ _ Hp Ho).
  pose proof (call_openrouter_llm_cases llm
    (chat_context project_data (chat_history w project_id) message) w) as Hc.
  destruct (completion_text _) as [reply|].
  - rewrite Hc. destruct (chat_writes_world project_id id_user id_assistant
                (message_doc "user" message now_user)
                (message_doc "assistant" reply now_assistant) reply
                (World (db w) (llm_requests w
                   ++ [chat_context project_data (chat_history w project_id)
                         message])%list))
      as (out & w' & -> & Hreq & Hpaths).
    simpl in *. split; [done|]. by intros ? [= <-].
  - destruct Hc as (code & detail & ->). simpl. split; [done|].
    by intros ? [= <-].
Qed.

(** X14. The two writes of [chat] are not one transaction: when the
    completion arrived and the user message was written but the id
    drawn for the assistant message is taken, [chat] answers 500, the
    user message stays in the log and the completion is lost. *)
Theorem chat_second_write_fails llm w project_id project_data user_id message
    text reply now_user now_assistant id_user id_assistant :
  (db w !!! projects_path) !! project_id = Some project_data →
  dict_get project_data "userId" = VStr user_id →
  llm (chat_context project_data (chat_history w project_id) message)
  = HttpResponse 200 text (inl reply) →
  (db w !!! messages_path project_id) !! id_user = None →
  (id_assistant = id_user ∨
   is_Some ((db w !!! messages_path project_id) !! id_assistant)) →
  ∃ detail w',
    chat llm project_id message user_id now_user now_assistant
         id_user id_assistant w
    = (Raise (HTTPException 500 detail), w') ∧
    db w' !!! messages_path project_id
    = <[id_user := message_doc "user" message now_user]>
        (db w !!! messages_path project_id).
Proof.
  intros Hp Ho Hllm Hu Ha.
  rewrite (chat_owner _ _ _ _ _ _ _ _ _ _ Hp Ho).
  rewrite (call_openrouter_llm_ok _ _ _ _ _ Hllm).
  unfold doc_add. io_unfold. cbn [db]. rewrite Hu.
  unfold doc_set at 1. cbn [db llm_requests].
  rewrite lookup_total_insert_eq.
  assert (Htaken : is_Some (<[id_user := message_doc "user" message now_user]>
                              (db w !!! messages_path project_id)
                            !! id_assistant)).
  { destruct Ha as [->|[d Hd]].
    - rewrite lookup_insert_eq. by eexists.
    - destruct (decide (id_user = id_assistant)) as [->|Hne].
      + rewrite lookup_insert_eq. by eexists.
      + rewrite lookup_insert_ne by done. by eexists. }
  destruct Htaken as [d ->]. eexists _, _. split; [reflexivity|].
  simpl. by rewrite lookup_total_insert_eq.
Qed.

Lemma chat_second_write_fails_witness :
  ∃ detail w',
    chat llm_hello "p" "again" "alice" (demo_time 30) (demo_time 31)
         "u" "m1" small_world
    = (Raise (HTTPException 500 detail), w') ∧
    is_Some ((db w' !!! messages_path "p") !! "u").
Proof.
  destruct (chat_second_write_fails llm_hello small_world "p"
              (demo_project "alice" (demo_time 0)) "alice" "again" "" "hello"
              (demo_time 30) (demo_time 31) "u" "m1")
    as (detail & w' & Hchat & Hmsgs).
  - reflexivity.
  - reflexivity.
  - reflexivity.
  - reflexivity.
  - right. by eexists.
  - exists detail, w'. split; [exact Hchat|].
    rewrite Hmsgs, lookup_insert_eq. by eexists.
Defined.

(** X15. The history a later request reads is the first twenty messages
    of the log with the new exchange at its end: once the log holds
    twenty messages, no later exchange ever enters the context sent to
    the completion endpoint. *)
Theorem chat_history_after_exchange llm w project_id user_id message reply
    now_user now_assistant id_user id_assistant w' :
  chat llm project_id message user_id now_user now_assistant
       id_user id_assistant w
  = (Return reply, w') →
  (∀ s, s ∈ message_log w project_id →
        lexico (dict_get (to_dict s) "timestamp") (VTime now_user)) →
  lexico now_user now_assistant →
  chat_history w' project_id
  = take 20 (message_log w project_id
             ++ [Snapshot id_user (message_doc "user" message now_user);
                 Snapshot id_assistant
                   (message_doc "assistant" reply now_assistant)])%list ∧
  ((20 ≤ length (message_log w project_id))%nat →
   chat_history w' project_id = chat_history w project_id).
Proof.
  intros Hchat Hclock Hlt.
  destruct (chat_success_inv _ _ _ _ _ _ _ _ _ _ _ Hchat)
    as (project_data & text & Hp & Ho & Hllm & Hu & Ha & Hne).
  destruct (chat_success llm w project_id project_data user_id message
              text reply now_user now_assistant id_user id_assistant
              Hp Ho Hllm Hu Ha Hne Hclock Hlt)
    as (w'' & Hchat' & _ & Hlog & _).
  rewrite Hchat in Hchat'. injection Hchat' as <-.
  rewrite !chat_history_prefix, Hlog. split; [done|].
  intros Hlen. by rewrite take_app_le.
Qed.

Lemma chat_history_after_exchange_witness :
  chat_history
    (chat llm_hello "p" "hi" "alice" (demo_time 30) (demo_time 31)
          "u" "a" demo_world).2 "p"
  = chat_history demo_world "p".
Proof.
  destruct (chat_history_after_exchange llm_hello demo_world "p" "alice" "hi"
              "hello" (demo_time 30) (demo_time 31) "u" "a"
              (chat llm_hello "p" "hi" "alice" (demo_time 30) (demo_time 31)
                    "u" "a" demo_world).2)
    as [_ Hfrozen].
  - by vm_compute.
  - apply Forall_forall. apply (bool_decide_unpack _). by vm_compute.
  - apply (bool_decide_unpack _). by vm_compute.
  - apply Hfrozen. apply (bool_decide_unpack _). by vm_compute.
Defined.



(** *** Reading the history *)

(** X17. For the owner [get_chat_history] returns every message that has
    a timestamp, each once, in ascending order of the timestamps, and
    changes nothing. *)
Theorem get_chat_history_sorted w project_id project_data user_id :
  (db w !!! projects_path) !! project_id = Some project_data →
  dict_get project_data "userId" = VStr user_id →
  ∃ log,
    get_chat_history project_id user_id w = (Return (history_dict <$> log), w) ∧
    log ≡ₚ filter (λ s, is_Some (to_dict s !! "timestamp"))
                  (stream (db w !!! messages_path project_id)) ∧
    (∀ s, s ∈ log ↔
          to_dict s !! "timestamp" ≠ None ∧
          (db w !!! messages_path project_id) !! snap_id s = Some (to_dict s)) ∧
    StronglySorted (λ a b, ¬ lexico (dict_get (to_dict b) "timestamp")
                                    (dict_get (to_dict a) "timestamp")) log.
Proof.
  intros Hp Ho. exists (message_log w project_id).
  split; [by eapply get_chat_history_owner|].
  split; [apply order_by_Permutation|]. split.
  - intros s. unfold message_log.
    rewrite elem_of_order_by, elem_of_stream, <- not_eq_None_Some. done.
  - eapply StronglySorted_weaken; [|apply order_by_sorted].
    intros a b _ _ Hab Hlt. apply Hab. by left.
Qed.

Lemma get_chat_history_sorted_witness :
  ∃ log,
    get_chat_history "p" "alice" small_world
    = (Return (history_dict <$> log), small_world) ∧
    length log = 2%nat ∧
    StronglySorted (λ a b, ¬ lexico (dict_get (to_dict b) "timestamp")
                                    (dict_get (to_dict a) "timestamp")) log.
Proof.
  destruct (get_chat_history_sorted small_world "p"
              (demo_project "alice" (demo_time 0)) "alice" eq_refl eq_refl)
    as (log & Hrun & Hperm & _ & Hsorted).
  exists log. split; [exact Hrun|]. split; [|exact Hsorted].
  rewrite Hperm. by vm_compute.
Defined.

(** *** Files *)

Lemma list_files_owner w project_id project_data user_id :
  (db w !!! projects_path) !! project_id = Some project_data →
  project_data !! "userId" = Some (VStr user_id) →
  list_files project_id user_id w
  = (Return (FileListing project_id
               (length (files_query project_id user_id
                          (stream (db w !!! files_path))))
               (file_dict <$> files_query project_id user_id
                                (stream (db w !!! files_path)))), w).
Proof.
  intros Hp Ho. unfold list_files. io_unfold. rewrite Hp, Ho. simpl.
  by rewrite bool_decide_false by (by intros []).
Qed.

Lemma elem_of_files_query project_id user_id (c : collection) s :
  s ∈ files_query project_id user_id (stream c) ↔
  c !! snap_id s = Some (to_dict s) ∧
  to_dict s !! "projectId" = Some (VStr project_id) ∧
  to_dict s !! "userId" = Some (VStr user_id).
Proof.
  unfold files_query, where_eq, compose.
  rewrite !list_elem_of_filter, elem_of_stream. tauto.
Qed.

(** X18. For the owner [list_files] returns the files stored under the
    project with the caller as [userId], each once; the count is the
    number of entries; no entry carries the payload [contentBase64],
    and each carries the id of its document. Nothing is changed. *)
Theorem list_files_listing w project_id project_data user_id :
  (db w !!! projects_path) !! project_id = Some project_data →
  project_data !! "userId" = Some (VStr user_id) →
  ∃ files,
    list_files project_id user_id w
    = (Return (FileListing project_id (length files) (file_dict <$> files)),
       w) ∧
    NoDup files ∧
    (∀ s, s ∈ files ↔
          (db w !!! files_path) !! snap_id s = Some (to_dict s) ∧
          to_dict s !! "projectId" = Some (VStr project_id) ∧
          to_dict s !! "userId" = Some (VStr user_id)) ∧
    (∀ s, s ∈ files →
          file_dict s !! "contentBase64" = None ∧
          file_dict s !! "fileId" = Some (VStr (snap_id s)) ∧
          file_dict s !! "projectId" = Some (VStr project_id)).
Proof.
  intros Hp Ho.
  exists (files_query project_id user_id (stream (db w !!! files_path))).
  split; [by apply list_files_owner with project_data|].
  split; [apply NoDup_filter, NoDup_filter, stream_NoDup|].
  split; [intros s; apply elem_of_files_query|].
  intros s (_ & Hproject & _)%elem_of_files_query. unfold file_dict.
  cbv zeta. split; [|split].
  - by rewrite !lookup_insert_ne, lookup_delete_eq by done.
  - by rewrite lookup_insert_ne, lookup_insert_eq by done.
  - by rewrite !lookup_insert_ne, lookup_delete_ne by done.
Qed.

Lemma list_files_listing_witness :
  ∃ files,
    list_files "p" "alice" files_world
    = (Return (FileListing "p" (length files) (file_dict <$> files)),
       files_world) ∧
    Snapshot "f2" (file_doc (λ _, "aGk=") "p" "alice" sample_file
                            (demo_time 40)) ∈ files ∧
    ∀ s, s ∈ files → file_dict s !! "contentBase64" = None.
Proof.
  destruct (list_files_listing files_world "p"
              (demo_project "alice" (demo_time 0)) "alice" eq_refl eq_refl)
    as (files & Hrun & _ & Hfiles & Hshape).
  exists files. split; [exact Hrun|]. split.
  - apply Hfiles. split; [reflexivity|split; reflexivity].
  - intros s Hs. by destruct (Hshape s Hs).
Defined.

Lemma upload_file_owner b64encode w project_id project_data user_id file now
    file_id :
  (db w !!! projects_path) !! project_id = Some project_data →
  project_data !! "userId" = Some (VStr user_id) →
  (Z.of_nat (length (file_bytes file)) ≤ MAX_FILE_SIZE)%Z →
  (document_size files_path file_id
     (file_doc b64encode project_id user_id file now) ≤ MAX_DOCUMENT_SIZE)%Z →
  upload_file b64encode project_id file user_id now file_id w
  = (Return (UploadResult file_id (filename file)
               (Z.of_nat (length (file_bytes file))) (content_type file)),
     World (<[files_path :=
               <[file_id := file_doc b64encode project_id user_id file now]>
                 (db w !!! files_path)]> (db w)) (llm_requests w)).
Proof.
  intros Hp Ho Hfits Hstore. unfold upload_file, doc_set_checked, doc_set.
  io_unfold. rewrite Hp, Ho. simpl.
  rewrite bool_decide_false by (by intros []).
  rewrite bool_decide_false by lia.
  by rewrite bool_decide_false by lia.
Qed.

Lemma delete_file_owner w project_id file_id user_id project_data file_data :
  (db w !!! projects_path) !! project_id = Some project_data →
  project_data !! "userId" = Some (VStr user_id) →
  (db w !!! files_path) !! file_id = Some file_data →
  file_data !! "projectId" = Some (VStr project_id) →
  delete_file project_id file_id user_id w
  = (Return file_id,
     World (<[files_path := delete file_id (db w !!! files_path)]> (db w))
           (llm_requests w)).
Proof.
  intros Hp Ho Hf Hfp. unfold delete_file, doc_delete. io_unfold.
  rewrite Hp, Ho. simpl. rewrite bool_decide_false by (by intros []).
  rewrite Hf, Hfp. simpl. by rewrite bool_decide_false by (by intros []).
Qed.

Lemma files_path_ne : files_path ≠ projects_path.
Proof. done. Qed.

(** X19. A file uploaded to an owned project, whose record fits in a
    document of the store, appears in the owner's listing of the
    project, under the id it was stored with, with its name, content
    type, size and upload time as an ISO string, and without its
    payload. *)
Theorem upload_then_list b64encode w project_id project_data user_id file now
    file_id :
  (db w !!! projects_path) !! project_id = Some project_data →
  project_data !! "userId" = Some (VStr user_id) →
  (Z.of_nat (length (file_bytes file)) ≤ MAX_FILE_SIZE)%Z →
  (document_size files_path file_id
     (file_doc b64encode project_id user_id file now) ≤ MAX_DOCUMENT_SIZE)%Z →
  ∃ w' count files entry,
    (upload_file b64encode project_id file user_id now file_id w).2 = w' ∧
    list_files project_id user_id w'
    = (Return (FileListing project_id count files), w') ∧
    entry ∈ files ∧
    entry !! "fileId" = Some (VStr file_id) ∧
    entry !! "filename" = Some (filename file) ∧
    entry !! "contentType" = Some (content_type file) ∧
    entry !! "size" = Some (VInt (Z.of_nat (length (file_bytes file)))) ∧
    entry !! "uploadedAt" = Some (VStr (isoformat now)) ∧
    entry !! "contentBase64" = None.
Proof.
  intros Hp Ho Hfits Hstore.
  rewrite (upload_file_owner _ _ _ _ _ _ _ _ Hp Ho Hfits Hstore). cbn [snd].
  set (stored := file_doc b64encode project_id user_id file now).
  set (w' := World _ _).
  assert (Hp' : (db w' !!! projects_path) !! project_id = Some project_data).
  { subst w'. cbn [db]. rewrite lookup_total_insert_ne; [done|].
    apply files_path_ne. }
  assert (Hstored : (db w' !!! files_path) !! file_id = Some stored).
  { subst w'. cbn [db]. by rewrite lookup_total_insert_eq, lookup_insert_eq. }
  eexists w', _, _, (file_dict (Snapshot file_id stored)).
  split; [done|]. split; [by apply list_files_owner with project_data|].
  split.
  { apply list_elem_of_fmap_2, elem_of_files_query. by split. }
  unfold file_dict, stored, file_doc, dict_get. cbn [to_dict snap_id].
  by repeat split.
Qed.

Lemma upload_then_list_witness :
  ∃ entry,
    entry ∈ fl_files
      match (list_files "p" "alice"
               (upload_file (λ _, "aGk=") "p" sample_file "alice"
                  (demo_time 40) "f2" small_world).2).1 with
      | Return listing => listing
      | Raise _ => FileListing "" 0 []
      end ∧
    entry !! "fileId" = Some (VStr "f2") ∧
    entry !! "size" = Some (VInt 2) ∧
    entry !! "contentBase64" = None.
Proof.
  destruct (upload_then_list (λ _, "aGk=") small_world "p"
              (demo_project "alice" (demo_time 0)) "alice" sample_file
              (demo_time 40) "f2" eq_refl eq_refl)
    as (w' & count & files & entry & <- & Hlist & Hin & Hid & _ & _ & Hsize
        & _ & Hnone).
  - by vm_compute.
  - by vm_compute.
  - exists entry. rewrite Hlist. by repeat split.
Defined.

(** X20. Deleting a file just uploaded under a free id, whose record
    fits in a document of the store, succeeds and puts the files
    collection back as it was before the upload; deleting it once more
    answers 404. *)
Theorem upload_then_delete b64encode w project_id project_data user_id file now
    file_id :
  (db w !!! projects_path) !! project_id = Some project_data →
  project_data !! "userId" = Some (VStr user_id) →
  (Z.of_nat (length (file_bytes file)) ≤ MAX_FILE_SIZE)%Z →
  (document_size files_path file_id
     (file_doc b64encode project_id user_id file now) ≤ MAX_DOCUMENT_SIZE)%Z →
  (db w !!! files_path) !! file_id = None →
  ∃ w' w'',
    (upload_file b64encode project_id file user_id now file_id w).2 = w' ∧
    delete_file project_id file_id user_id w' = (Return file_id, w'') ∧
    db w'' !!! files_path = db w !!! files_path ∧
    delete_file project_id file_id user_id w''
    = (Raise (HTTPException 404 "File not found"), w'').
Proof.
  intros Hp Ho Hfits Hstore Hfree.
  rewrite (upload_file_owner _ _ _ _ _ _ _ _ Hp Ho Hfits Hstore). cbn [snd].
  set (stored := file_doc b64encode project_id user_id file now).
  set (w' := World _ _).
  assert (Hp' : (db w' !!! projects_path) !! project_id = Some project_data).
  { subst w'. cbn [db]. rewrite lookup_total_insert_ne; [done|].
    apply files_path_ne. }
  assert (Hfiles : db w' !!! files_path
                   = <[file_id := stored]> (db w !!! files_path)).
  { subst w'. cbn [db]. by rewrite lookup_total_insert_eq. }
  eexists w', _. split; [done|]. split.
  { apply (delete_file_owner w' project_id file_id user_id project_data stored);
      [done|done|by rewrite Hfiles, lookup_insert_eq|done]. }
  set (w'' := World _ _).
  assert (Hback : db w'' !!! files_path = db w !!! files_path).
  { subst w''. cbn [db]. rewrite lookup_total_insert_eq, Hfiles.
    by rewrite delete_insert_id. }
  split; [done|].
  unfold delete_file. io_unfold.
  assert (Hp'' : (db w'' !!! projects_path) !! project_id = Some project_data).
  { subst w''. cbn [db]. rewrite lookup_total_insert_ne; [done|].
    apply files_path_ne. }
  rewrite Hp'', Ho. simpl. rewrite bool_decide_false by (by intros []).
  by rewrite Hback, Hfree.
Qed.

Lemma upload_then_delete_witness :
  ∃ w'',
    delete_file "p" "f2" "alice"
      (upload_file (λ _, "aGk=") "p" sample_file "alice" (demo_time 40) "f2"
                   small_world).2
    = (Return "f2", w'') ∧
    db w'' !!! files_path = db small_world !!! files_path.
Proof.
  destruct (upload_then_delete (λ _, "aGk=") small_world "p"
              (demo_project "alice" (demo_time 0)) "alice" sample_file
              (demo_time 40) "f2" eq_refl eq_refl)
    as (w' & w'' & <- & Hdel & Hback & _).
  - by vm_compute.
  - by vm_compute.
  - reflexivity.
  - exists w''. split; [exact Hdel|exact Hback].
Defined.

(** X21. For the owner of the project, [delete_file] answers 404 for a
    file that does not exist and 400 for a file stored under another
    project, and deletes nothing in either case. *)
Theorem delete_file_refusals w project_id file_id user_id project_data :
  (db w !!! projects_path) !! project_id = Some project_data →
  project_data !! "userId" = Some (VStr user_id) →
  ((db w !!! files_path) !! file_id = None →
   delete_file project_id file_id user_id w
   = (Raise (HTTPException 404 "File not found"), w)) ∧
  (∀ file_data other,
     (db w !!! files_path) !! file_id = Some file_data →
     file_data !! "projectId" = Some (VStr other) →
     other ≠ project_id →
     delete_file project_id file_id user_id w
     = (Raise (HTTPException 400 "File does not belong to project"), w)).
Proof.
  intros Hp Ho. split.
  - intros Hf. unfold delete_file. io_unfold. rewrite Hp, Ho. simpl.
    rewrite bool_decide_false by (by intros []). by rewrite Hf.
  - intros file_data other Hf Hfp Hne. unfold delete_file. io_unfold.
    rewrite Hp, Ho. simpl. rewrite bool_decide_false by (by intros []).
    rewrite Hf, Hfp. simpl. rewrite bool_decide_true; [done|congruence].
Qed.

Lemma delete_file_refusals_witness :
  delete_file "q" "f1" "alice" small_world
  = (Raise (HTTPException 400 "File does not belong to project"), small_world) ∧
  delete_file "q" "nope" "alice" small_world
  = (Raise (HTTPException 404 "File not found"), small_world).
Proof.
  destruct (delete_file_refusals small_world "q" "f1" "alice"
              (demo_project "alice" (demo_time 7)) eq_refl eq_refl)
    as [_ Hother].
  destruct (delete_file_refusals small_world "q" "nope" "alice"
              (demo_project "alice" (demo_time 7)) eq_refl eq_refl)
    as [Hmissing _].
  split.
  - apply (Hother (<["projectId" := VStr "p"]> (<["userId" := VStr "bob"]> ∅))
                  "p"); [reflexivity|reflexivity|discriminate].
  - apply Hmissing. reflexivity.
Defined.

(** *** Serialized timestamps *)

(** X22. On valid datetimes [serialize_timestamp] loses nothing: two
    times have the same ISO string only if they are the same time, and
    the strings compare, by code point, as the times do. *)
Theorem serialize_timestamp_order t1 t2 :
  valid_datetime t1 → valid_datetime t2 →
  (serialize_timestamp (VTime t1) = serialize_timestamp (VTime t2) ↔ t1 = t2) ∧
  (lexico (isoformat t1) (isoformat t2) ↔ lexico t1 t2).
Proof.
  intros Hv1 Hv2.
  assert (Hinj : isoformat t1 = isoformat t2 → t1 = t2).
  { intros Heq.
    destruct (trichotomy lexico t1 t2) as [Hlt|[->|Hgt]]; [|done|].
    - apply isoformat_mono in Hlt; [|done..]. rewrite Heq in Hlt.
      by apply (irreflexivity lexico) in Hlt.
    - apply isoformat_mono in Hgt; [|done..]. rewrite Heq in Hgt.
      by apply (irreflexivity lexico) in Hgt. }
  split.
  - unfold serialize_timestamp. split; [|by intros ->].
    intros Heq. apply Hinj. congruence.
  - split; [|by apply isoformat_mono].
    intros Hlt. destruct (trichotomy lexico t1 t2) as [?|[->|Hgt]]; [done|..].
    + by apply (irreflexivity lexico) in Hlt.
    + apply isoformat_mono in Hgt; [|done..].
      destruct (irreflexivity lexico (isoformat t1)). by trans (isoformat t2).
Qed.

Lemma serialize_timestamp_order_witness :
  lexico (isoformat (demo_time 1)) (isoformat (Datetime 2024 1 1 12 0 1 5)).
Proof.
  apply (serialize_timestamp_order (demo_time 1) (Datetime 2024 1 1 12 0 1 5)).
  - unfold valid_datetime. simpl. lia.
  - unfold valid_datetime. simpl. lia.
  - apply (bool_decide_unpack _). by vm_compute.
Defined.

(** *** Ties in a stable sort *)

Section sort_by_stable.
Context {A} (R1 R2 : relation A) `{∀ x y, Decision (R1 x y)}.
Context `{!Total R1, !Transitive R1}.

Lemma insert_by_stable x s :
  Forall (R2 x) s →
  StronglySorted (tie_sorted R1 R2) s →
  StronglySorted (tie_sorted R1 R2) (insert_by R1 x s).
Proof.
  intros Hx Hs. induction Hs as [|y s Hs IH Hy]; simpl.
  - repeat constructor.
  - apply Forall_cons in Hx as [Hxy Hxs]. case_decide as H1.
    + constructor; [by constructor|]. constructor; [by split|].
      apply Forall_forall. intros z Hz.
      rewrite Forall_forall in Hy, Hxs. destruct (Hy z Hz) as [Hyz _].
      split; [by trans y|]. intros _. by apply Hxs.
    + constructor; [by apply IH|].
      rewrite insert_by_Permutation. constructor; [|done].
      split; [by destruct (total R1 x y)|done].
Qed.

(** The sort keeps the order the list had among elements that tie. *)
Lemma sort_by_stable l :
  StronglySorted R2 l → StronglySorted (tie_sorted R1 R2) (sort_by R1 l).
Proof.
  induction 1 as [|x l Hl IH Hx]; simpl; [constructor|].
  apply insert_by_stable; [|done].
  by rewrite sort_by_Permutation.
Qed.
End sort_by_stable.

Lemma StronglySorted_filter {A} (R : relation A) (P : A → Prop)
    `{∀ x, Decision (P x)} l :
  StronglySorted R l → StronglySorted R (filter P l).
Proof.
  induction 1 as [|x l Hl IH Hx]; [constructor|].
  rewrite filter_cons. case_decide; [|done].
  constructor; [done|]. apply Forall_forall. intros y Hy.
  apply list_elem_of_filter in Hy as [_ Hy]. by eapply Forall_forall in Hx.
Qed.

Lemma stream_sorted (c : collection) :
  StronglySorted (below snap_id) (stream c).
Proof. apply sort_by_sorted; apply _. Qed.

(** X23. The listing is a stable sort of the projects in the order of
    their ids: entries go by descending creation string, and entries
    with the same creation string by ascending id. *)
Theorem list_projects_ties type_error_text user_id w l w' :
  list_projects type_error_text user_id w = (Return l, w') →
  StronglySorted
    (λ a b, ¬ lexico (created_string a) (created_string b) ∧
            (created_string a = created_string b →
             ¬ lexico (pe_id b) (pe_id a))) l.
Proof.
  rewrite list_projects_cases. fold (owned_projects w user_id).
  destruct (_ && _); [done|]. intros [= <- <-].
  set (key := λ s : snapshot, created_string (project_dict s)).
  assert (Hmap : sort_by (above created_string)
                   (project_dict <$> owned_projects w user_id)
                 = project_dict
                     <$> sort_by (above key) (owned_projects w user_id))
    by apply (sort_by_fmap (above created_string) project_dict).
  change (λ x, default "" (pe_createdAt x)) with created_string.
  rewrite Hmap.
  pose proof (sort_by_stable (above key) (below snap_id)
                (owned_projects w user_id)) as Hstable.
  assert (Hin : StronglySorted (below snap_id) (owned_projects w user_id))
    by apply StronglySorted_filter, stream_sorted.
  specialize (Hstable Hin). clear Hmap Hin. revert Hstable.
  generalize (sort_by (above key) (owned_projects w user_id)) as ps.
  intros ps Hstable.
  induction Hstable as [|s ss Hss IH Hs]; [constructor|].
  csimpl. constructor; [done|].
  apply Forall_fmap, Forall_forall. intros s' Hs'.
  rewrite Forall_forall in Hs. destruct (Hs s' Hs') as [Habove Htie].
  split; [done|]. intros Heq. apply Htie.
  unfold above, key. rewrite Heq. apply (irreflexivity lexico).
Qed.

Lemma list_projects_ties_witness :
  StronglySorted
    (λ a b, ¬ lexico (created_string a) (created_string b) ∧
            (created_string a = created_string b →
             ¬ lexico (pe_id b) (pe_id a)))
    [ProjectEntry "r" (VStr "demo") (VStr "You are helpful")
       (Some "2024-01-01T12:00:09+00:00") (VStr "alice");
     ProjectEntry "p" (VStr "demo") (VStr "You are helpful")
       (Some "2024-01-01T12:00:07+00:00") (VStr "alice");
     ProjectEntry "q" (VStr "demo") (VStr "You are helpful")
       (Some "2024-01-01T12:00:07+00:00") (VStr "alice")].
Proof.
  apply (list_projects_ties (λ _, "") "alice" tie_world _ tie_world).
  vm_compute. reflexivity.
Defined.


